(** * d-di: the drug-interaction screen of [src/index.tsx]

    A shallow embedding of the [App] component: its seven state cells, the
    two persisted keys in [localStorage], the handlers [handleStart] and
    [checkInteractions], the reset button, the [AlertIcon] colour table and
    the element tree [App] returns.  The platform pieces the handlers call
    ([String.prototype.trim], [JSON.parse], [Storage]) are modelled after
    ECMAScript and the Web Storage interface. *)

From Stdlib Require Import ZArith NArith Ascii String List Lia.
From stdpp Require Import gmap list.
Import ListNotations.

Local Open Scope N_scope.

(** ** JavaScript strings

    A JavaScript string is a sequence of UTF-16 code units.  Every character
    that [trim] and [JSON.parse] treat specially lies in the Basic
    Multilingual Plane, so working on code units is exact. *)

Abbreviation js_string := (list N).

(** The code units of an ASCII literal of the source. *)
Definition lit (s : string) : js_string :=
  map N_of_ascii (list_ascii_of_string s).

Definition N_between (lo hi c : N) : bool := (lo <=? c) && (c <=? hi).

(** ECMAScript [WhiteSpace] and [LineTerminator]: what [trim] strips. *)
Definition is_white_space (c : N) : bool :=
  (c =? 0x09) || (c =? 0x0B) || (c =? 0x0C) || (c =? 0x20) || (c =? 0xA0)
  || (c =? 0x1680) || N_between 0x2000 0x200A c || (c =? 0x202F)
  || (c =? 0x205F) || (c =? 0x3000) || (c =? 0xFEFF).

Definition is_line_terminator (c : N) : bool :=
  (c =? 0x0A) || (c =? 0x0D) || (c =? 0x2028) || (c =? 0x2029).

Definition is_trimmable (c : N) : bool :=
  is_white_space c || is_line_terminator c.

Fixpoint trimStart (s : js_string) : js_string :=
  match s with
  | c :: rest => if is_trimmable c then trimStart rest else s
  | [] => []
  end.

Definition trimEnd (s : js_string) : js_string :=
  rev (trimStart (rev s)).

(** [s.trim()] *)
Definition trim (s : js_string) : js_string := trimEnd (trimStart s).

(** Truthiness of a string: every string but the empty one. *)
Definition truthy_string (s : js_string) : bool :=
  match s with [] => false | _ :: _ => true end.

(** [a || b] on strings. *)
Definition or_string (a b : js_string) : js_string :=
  if truthy_string a then a else b.

(** [a === b] on strings. *)
Definition strict_eq_string (a b : js_string) : bool :=
  bool_decide (a = b).

Definition first_unit (s : js_string) : option N := head s.
Definition last_unit (s : js_string) : option N := last s.

(** A string carries no leading (trailing) white space when its first (last)
    code unit, if any, is not one [trim] would strip. *)
Definition no_leading_space (s : js_string) : Prop :=
  forall c, first_unit s = Some c -> is_trimmable c = false.
Definition no_trailing_space (s : js_string) : Prop :=
  forall c, last_unit s = Some c -> is_trimmable c = false.


(** ** JSON values and [JSON.parse]

    [JSON.parse] is a built-in; the model follows the JSON grammar of
    ECMAScript: a scanner over code units feeding a stack machine over
    tokens.  Both are structurally recursive, so parsing is total:
    [None] stands for the [SyntaxError] the built-in throws. *)

(** A number keeps its decimal reading [(-1)^neg * digits * 10^exp10]; the
    program only ever tests a parsed number for being zero. *)
Record number := Number { num_neg : bool; num_digits : N; num_exp10 : Z }.

#[warnings="-register-all"]
Inductive json :=
| JNull
| JBool (b : bool)
| JNumber (n : number)
| JString (s : js_string)
| JArray (items : list json)
| JObject (members : list (js_string * json)).

Inductive token :=
| TLBrace | TRBrace | TLBracket | TRBracket | TColon | TComma
| TStr (s : js_string) | TNum (n : number) | TTrue | TFalse | TNull.

(** Where the scanner stands inside a number literal: an optional minus, an
    integer part (a lone 0, or digits not starting with 0), an optional
    point with one or more digits, an optional exponent mark with an optional
    sign and one or more digits. *)
Inductive num_state :=
| NSign | NZero | NInt | NPoint | NFrac | NExpMark | NExpSign | NExp.

Record num_acc := NumAcc {
  acc_neg : bool;        (* a leading minus was read *)
  acc_digits : N;        (* integer and fraction digits read so far *)
  acc_scale : N;         (* how many of them are fraction digits *)
  acc_exp_neg : bool;    (* the exponent carries a minus *)
  acc_exp : N            (* exponent digits read so far *)
}.

Definition num_accepting (st : num_state) : bool :=
  match st with
  | NZero | NInt | NFrac | NExp => true
  | NSign | NPoint | NExpMark | NExpSign => false
  end.

Definition num_finish (a : num_acc) : number :=
  Number (acc_neg a) (acc_digits a)
         ((if acc_exp_neg a then - Z.of_N (acc_exp a) else Z.of_N (acc_exp a))
          - Z.of_N (acc_scale a))%Z.

Inductive lex_mode :=
| LIdle
| LString (acc : js_string)                    (* units read, newest first *)
| LEscape (acc : js_string)                    (* just after a backslash *)
| LUnicode (acc : js_string) (k : nat) (v : N) (* k hex digits of \u read *)
| LNumber (st : num_state) (a : num_acc)
| LWord (rest : js_string) (t : token).        (* inside true, false, null *)

Definition is_digit (c : N) : bool := N_between 0x30 0x39 c.
Definition digit_value (c : N) : N := c - 0x30.

Definition hex_value (c : N) : option N :=
  if N_between 0x30 0x39 c then Some (c - 0x30)
  else if N_between 0x41 0x46 c then Some (c - 0x41 + 10)
  else if N_between 0x61 0x66 c then Some (c - 0x61 + 10)
  else None.

(** JSON white space: tab, line feed, carriage return, space. *)
Definition is_json_space (c : N) : bool :=
  (c =? 0x09) || (c =? 0x0A) || (c =? 0x0D) || (c =? 0x20).

Definition fresh_acc (neg : bool) (d : N) : num_acc := NumAcc neg d 0 false 0.

Definition push_digit (a : num_acc) (c : N) (fraction : bool) : num_acc :=
  NumAcc (acc_neg a) (acc_digits a * 10 + digit_value c)
         (if fraction then acc_scale a + 1 else acc_scale a)
         (acc_exp_neg a) (acc_exp a).

Definition push_exp_digit (a : num_acc) (c : N) : num_acc :=
  NumAcc (acc_neg a) (acc_digits a) (acc_scale a)
         (acc_exp_neg a) (acc_exp a * 10 + digit_value c).

Definition set_exp_neg (a : num_acc) : num_acc :=
  NumAcc (acc_neg a) (acc_digits a) (acc_scale a) true (acc_exp a).

(** One code unit read between tokens. *)
Definition idle_step (c : N) : option (list token * lex_mode) :=
  if is_json_space c then Some ([], LIdle)
  else if c =? 0x7B then Some ([TLBrace], LIdle)
  else if c =? 0x7D then Some ([TRBrace], LIdle)
  else if c =? 0x5B then Some ([TLBracket], LIdle)
  else if c =? 0x5D then Some ([TRBracket], LIdle)
  else if c =? 0x3A then Some ([TColon], LIdle)
  else if c =? 0x2C then Some ([TComma], LIdle)
  else if c =? 0x22 then Some ([], LString [])
  else if c =? 0x2D then Some ([], LNumber NSign (fresh_acc true 0))
  else if c =? 0x30 then Some ([], LNumber NZero (fresh_acc false 0))
  else if is_digit c then Some ([], LNumber NInt (fresh_acc false (digit_value c)))
  else if c =? 0x74 then Some ([], LWord (lit "rue") TTrue)
  else if c =? 0x66 then Some ([], LWord (lit "alse") TFalse)
  else if c =? 0x6E then Some ([], LWord (lit "ull") TNull)
  else None.

(** The code unit an escape letter stands for. *)
Definition escape_unit (c : N) : option N :=
  if c =? 0x22 then Some 0x22
  else if c =? 0x5C then Some 0x5C
  else if c =? 0x2F then Some 0x2F
  else if c =? 0x62 then Some 0x08
  else if c =? 0x66 then Some 0x0C
  else if c =? 0x6E then Some 0x0A
  else if c =? 0x72 then Some 0x0D
  else if c =? 0x74 then Some 0x09
  else None.

(** A number literal continues with [c], or ends before it. *)
Definition number_step (st : num_state) (a : num_acc) (c : N)
  : option (list token * lex_mode) :=
  let ends :=
    if num_accepting st then
      match idle_step c with
      | Some (ts, m) => Some (TNum (num_finish a) :: ts, m)
      | None => None
      end
    else None in
  let is_point := c =? 0x2E in
  let is_e := (c =? 0x65) || (c =? 0x45) in
  match st with
  | NSign =>
      if c =? 0x30 then Some ([], LNumber NZero a)
      else if is_digit c then Some ([], LNumber NInt (push_digit a c false))
      else None
  | NZero =>
      if is_point then Some ([], LNumber NPoint a)
      else if is_e then Some ([], LNumber NExpMark a)
      else ends
  | NInt =>
      if is_digit c then Some ([], LNumber NInt (push_digit a c false))
      else if is_point then Some ([], LNumber NPoint a)
      else if is_e then Some ([], LNumber NExpMark a)
      else ends
  | NPoint =>
      if is_digit c then Some ([], LNumber NFrac (push_digit a c true)) else None
  | NFrac =>
      if is_digit c then Some ([], LNumber NFrac (push_digit a c true))
      else if is_e then Some ([], LNumber NExpMark a)
      else ends
  | NExpMark =>
      if c =? 0x2B then Some ([], LNumber NExpSign a)
      else if c =? 0x2D then Some ([], LNumber NExpSign (set_exp_neg a))
      else if is_digit c then Some ([], LNumber NExp (push_exp_digit a c))
      else None
  | NExpSign =>
      if is_digit c then Some ([], LNumber NExp (push_exp_digit a c)) else None
  | NExp =>
      if is_digit c then Some ([], LNumber NExp (push_exp_digit a c)) else ends
  end.

Definition lex_step (m : lex_mode) (c : N) : option (list token * lex_mode) :=
  match m with
  | LIdle => idle_step c
  | LString acc =>
      if c =? 0x22 then Some ([TStr (rev acc)], LIdle)
      else if c =? 0x5C then Some ([], LEscape acc)
      else if c <? 0x20 then None
      else Some ([], LString (c :: acc))
  | LEscape acc =>
      if c =? 0x75 then Some ([], LUnicode acc 0 0)
      else match escape_unit c with
           | Some u => Some ([], LString (u :: acc))
           | None => None
           end
  | LUnicode acc k v =>
      match hex_value c with
      | Some h =>
          let v' := v * 16 + h in
          if (k =? 3)%nat then Some ([], LString (v' :: acc))
          else Some ([], LUnicode acc (S k) v')
      | None => None
      end
  | LNumber st a => number_step st a c
  | LWord rest t =>
      match rest with
      | x :: rest' =>
          if c =? x then
            match rest' with
            | [] => Some ([t], LIdle)
            | _ :: _ => Some ([], LWord rest' t)
            end
          else None
      | [] => None
      end
  end.

(** What the end of the text means in each mode. *)
Definition lex_end (m : lex_mode) : option (list token) :=
  match m with
  | LIdle => Some []
  | LNumber st a => if num_accepting st then Some [TNum (num_finish a)] else None
  | _ => None
  end.

Fixpoint lex (m : lex_mode) (text : js_string) : option (list token) :=
  match text with
  | [] => lex_end m
  | c :: rest =>
      match lex_step m c with
      | Some (ts, m') =>
          match lex m' rest with
          | Some more => Some (ts ++ more)
          | None => None
          end
      | None => None
      end
  end.

(** [CreateDataProperty]: a repeated key keeps its place and takes the
    later value. *)
Fixpoint obj_set (k : js_string) (v : json) (ms : list (js_string * json))
  : list (js_string * json) :=
  match ms with
  | [] => [(k, v)]
  | (k', v') :: rest =>
      if bool_decide (k' = k) then (k, v) :: rest
      else (k', v') :: obj_set k v rest
  end.

(** What the token machine waits for. *)
Inductive expect :=
| EValue        (* a value: at top level, after a colon, after a comma in an array *)
| EValueOrEnd   (* just after an opening square bracket *)
| EKeyOrEnd     (* just after an opening brace *)
| EKey          (* after a comma in an object *)
| EColon
| ESeparator    (* after a value inside a container *)
| EDone (v : json).

(** The containers still open, innermost first. *)
Inductive frame :=
| InArray (items : list json)                                (* newest first *)
| InObject (members : list (js_string * json))
| InMember (members : list (js_string * json)) (key : js_string).

Definition parse_state := (list frame * expect)%type.

(** A value is complete: hand it to the innermost open container. *)
Definition complete (v : json) (stack : list frame) : option parse_state :=
  match stack with
  | [] => Some ([], EDone v)
  | InArray items :: up => Some (InArray (v :: items) :: up, ESeparator)
  | InMember ms k :: up => Some (InObject (obj_set k v ms) :: up, ESeparator)
  | InObject _ :: _ => None
  end.

Definition scalar_of (t : token) : option json :=
  match t with
  | TStr s => Some (JString s)
  | TNum n => Some (JNumber n)
  | TTrue => Some (JBool true)
  | TFalse => Some (JBool false)
  | TNull => Some JNull
  | _ => None
  end.

Definition close_array (stack : list frame) : option parse_state :=
  match stack with
  | InArray items :: up => complete (JArray (rev items)) up
  | _ => None
  end.

Definition close_object (stack : list frame) : option parse_state :=
  match stack with
  | InObject ms :: up => complete (JObject ms) up
  | _ => None
  end.

Definition begin_member (k : js_string) (stack : list frame)
  : option parse_state :=
  match stack with
  | InObject ms :: up => Some (InMember ms k :: up, EColon)
  | _ => None
  end.

Definition value_step (t : token) (stack : list frame) : option parse_state :=
  match t with
  | TLBracket => Some (InArray [] :: stack, EValueOrEnd)
  | TLBrace => Some (InObject [] :: stack, EKeyOrEnd)
  | _ => match scalar_of t with
         | Some v => complete v stack
         | None => None
         end
  end.

Definition parse_step (st : parse_state) (t : token) : option parse_state :=
  let '(stack, e) := st in
  match e with
  | EValue => value_step t stack
  | EValueOrEnd =>
      match t with
      | TRBracket => close_array stack
      | _ => value_step t stack
      end
  | EKeyOrEnd =>
      match t with
      | TStr k => begin_member k stack
      | TRBrace => close_object stack
      | _ => None
      end
  | EKey =>
      match t with
      | TStr k => begin_member k stack
      | _ => None
      end
  | EColon =>
      match t with
      | TColon => Some (stack, EValue)
      | _ => None
      end
  | ESeparator =>
      match t, stack with
      | TComma, InArray _ :: _ => Some (stack, EValue)
      | TComma, InObject _ :: _ => Some (stack, EKey)
      | TRBracket, _ => close_array stack
      | TRBrace, _ => close_object stack
      | _, _ => None
      end
  | EDone _ => None
  end.

Fixpoint parse_tokens (st : parse_state) (ts : list token) : option json :=
  match ts with
  | [] => match st with
          | ([], EDone v) => Some v
          | _ => None
          end
  | t :: rest =>
      match parse_step st t with
      | Some st' => parse_tokens st' rest
      | None => None
      end
  end.

(** [JSON.parse(text)]: the value, or [None] where it throws. *)
Definition JSON_parse (text : js_string) : option json :=
  match lex LIdle text with
  | Some ts => parse_tokens ([], EValue) ts
  | None => None
  end.

(** ** Values at run time

    A value the program holds is a parsed JSON value or [undefined]. *)

Abbreviation js_value := (option json).

Definition pow10 (e : N) : Z := (10 ^ Z.of_N e)%Z.

(** The double nearest to a decimal is zero exactly when the decimal is zero
    or at most half the least positive double, 2^-1075 (ties go to even). *)
Definition number_is_zero (n : number) : bool :=
  (num_digits n =? 0)
  || ((num_exp10 n <? 0)%Z
      && (Z.of_N (num_digits n) * 2 ^ 1075 <=? pow10 (Z.to_N (- num_exp10 n)))%Z).

(** [ToBoolean] *)
Definition truthy (v : js_value) : bool :=
  match v with
  | None | Some JNull => false
  | Some (JBool b) => b
  | Some (JNumber n) => negb (number_is_zero n)
  | Some (JString s) => truthy_string s
  | Some (JArray _) | Some (JObject _) => true
  end.

Fixpoint obj_get (k : js_string) (ms : list (js_string * json)) : js_value :=
  match ms with
  | [] => None
  | (k', v) :: rest => if bool_decide (k' = k) then Some v else obj_get k rest
  end.

Inductive js_error :=
| SyntaxError                      (* thrown by JSON.parse *)
| TypeError                        (* a property of undefined or null, a call of a non-function *)
| Rejection (reason : js_string).  (* the service call failed *)

Inductive completion (A : Type) :=
| Normal (a : A)
| Throw (e : js_error).
Arguments Normal {A} a.
Arguments Throw {A} e.

(** The data properties [App] reads off the parsed result.  None of these
    names is defined on [Object.prototype], [Array.prototype],
    [String.prototype], [Number.prototype] or [Boolean.prototype], so a read
    finds an own member of an object or [undefined]. *)
Inductive field :=
| f_interactions | f_summary | f_drugs | f_severity
| f_mechanism | f_clinicalEffect | f_recommendation.

Definition field_name (f : field) : js_string :=
  match f with
  | f_interactions => lit "interactions"
  | f_summary => lit "summary"
  | f_drugs => lit "drugs"
  | f_severity => lit "severity"
  | f_mechanism => lit "mechanism"
  | f_clinicalEffect => lit "clinicalEffect"
  | f_recommendation => lit "recommendation"
  end.

(** [v.f] *)
Definition get (v : js_value) (f : field) : completion js_value :=
  match v with
  | None | Some JNull => Throw TypeError
  | Some (JObject ms) => Normal (obj_get (field_name f) ms)
  | Some _ => Normal None
  end.

(** What [v.length] evaluates to. *)
Inductive length_value :=
| LenNum (n : N)
| LenOther (v : js_value).

Definition get_length (v : js_value) : completion length_value :=
  match v with
  | None | Some JNull => Throw TypeError
  | Some (JArray xs) => Normal (LenNum (N.of_nat (length xs)))
  | Some (JString s) => Normal (LenNum (N.of_nat (length s)))
  | Some (JObject ms) => Normal (LenOther (obj_get (lit "length") ms))
  | Some _ => Normal (LenOther None)
  end.

(** [n === 0] *)
Definition length_is_zero (l : length_value) : bool :=
  match l with
  | LenNum n => n =? 0
  | LenOther (Some (JNumber n)) => number_is_zero n
  | LenOther _ => false
  end.

Fixpoint map_completion {A B} (f : A -> completion B) (xs : list A)
  : completion (list B) :=
  match xs with
  | [] => Normal []
  | x :: rest =>
      match f x with
      | Normal b =>
          match map_completion f rest with
          | Normal bs => Normal (b :: bs)
          | Throw e => Throw e
          end
      | Throw e => Throw e
      end
  end.

(** [v.map(f)]: only an array has a callable [map]; a JSON value cannot
    carry a function of its own. *)
Definition array_map {B} (v : js_value) (f : json -> completion B)
  : completion (list B) :=
  match v with
  | Some (JArray xs) => map_completion f xs
  | _ => Throw TypeError
  end.

(** ** The declared interfaces *)

Module InteractionResult.
Record t := Build {
  severity : js_string;
  drugs : list js_string;
  mechanism : js_string;
  clinicalEffect : js_string;
  recommendation : js_string
}.

Definition to_json (r : t) : json :=
  JObject [ (field_name f_severity, JString (severity r));
            (field_name f_drugs, JArray (map JString (drugs r)));
            (field_name f_mechanism, JString (mechanism r));
            (field_name f_clinicalEffect, JString (clinicalEffect r));
            (field_name f_recommendation, JString (recommendation r)) ].
End InteractionResult.

Module DDIResponse.
Record t := Build {
  interactions : list InteractionResult.t;
  summary : js_string
}.

(** The run-time value a well-shaped response parses to. *)
Definition to_json (r : t) : json :=
  JObject [ (field_name f_interactions,
             JArray (map InteractionResult.to_json (interactions r)));
            (field_name f_summary, JString (summary r)) ].
End DDIResponse.

(** ** [AlertIcon]

    [colors] is an object literal, so [colors[severity]] also finds what the
    literal inherits from [Object.prototype]. *)

Definition colors : list (js_string * js_string) :=
  [ (lit "Minor", lit "text-blue-500");
    (lit "Moderate", lit "text-yellow-500");
    (lit "Major", lit "text-orange-500");
    (lit "Contraindicated", lit "text-red-600") ].

(** The property names of [Object.prototype] (ECMAScript, with Annex B). *)
Definition Object_prototype_names : list js_string :=
  [ lit "constructor"; lit "hasOwnProperty"; lit "isPrototypeOf";
    lit "propertyIsEnumerable"; lit "toLocaleString"; lit "toString";
    lit "valueOf"; lit "__proto__"; lit "__defineGetter__";
    lit "__defineSetter__"; lit "__lookupGetter__"; lit "__lookupSetter__" ].

(** What a lookup in [colors] yields. *)
Inductive looked_up :=
| OwnString (s : js_string)       (* one of the four entries *)
| Inherited (name : js_string).   (* a built-in function, or for __proto__ the prototype object *)

Fixpoint assoc (k : js_string) (tbl : list (js_string * js_string))
  : option js_string :=
  match tbl with
  | [] => None
  | (k', v) :: rest => if bool_decide (k' = k) then Some v else assoc k rest
  end.

(** [colors[severity]] *)
Definition colors_get (severity : js_string) : option looked_up :=
  match assoc severity colors with
  | Some c => Some (OwnString c)
  | None =>
      if bool_decide (severity ∈ Object_prototype_names)
      then Some (Inherited severity)
      else None
  end.

Definition truthy_looked_up (v : option looked_up) : bool :=
  match v with
  | None => false
  | Some (OwnString s) => truthy_string s
  | Some (Inherited _) => true
  end.

(** The [className] of the icon: [colors[severity] || 'text-gray-500']. *)
Definition AlertIcon (severity : js_string) : looked_up :=
  match colors_get severity with
  | Some v => if truthy_looked_up (Some v) then v else OwnString (lit "text-gray-500")
  | None => OwnString (lit "text-gray-500")
  end.

(** ** The browser: [localStorage], the console, the state cells of [App] *)

Definition KEY_ONBOARDED : js_string := lit "d-di-onboarded".
Definition KEY_AGENT_NAME : js_string := lit "d-di-agent-name".

(** The seven [useState] cells. *)
Record AppState := {
  onboarded : bool;
  agentName : js_string;
  inputName : js_string;
  drugs : js_string;
  loading : bool;
  results : json;               (* [JNull] is null *)
  error : option js_string      (* [None] is null *)
}.

(** [localStorage] holds strings under string keys; writes are taken to
    succeed (no quota error). *)
Record Browser := {
  localStorage : gmap js_string js_string;
  console : list js_error;      (* what console.error received, newest first *)
  hooks : AppState
}.

(** Code that reads and writes the browser and may throw. *)
Definition Eff (A : Type) : Type := Browser -> completion A * Browser.

Definition ret {A} (a : A) : Eff A := fun b => (Normal a, b).
Definition throw {A} (e : js_error) : Eff A := fun b => (Throw e, b).
Definition bind {A B} (m : Eff A) (k : A -> Eff B) : Eff B :=
  fun b => match m b with
           | (Normal a, b') => k a b'
           | (Throw e, b') => (Throw e, b')
           end.

Notation "x <- m ;; k" := (bind m (fun x => k))
  (at level 100, m at next level, right associativity).
Notation "m ;; k" := (bind m (fun _ => k))
  (at level 100, right associativity).

(** [try { body } catch (err) { handler err } finally { fin }] *)
Definition try_catch_finally {A} (body : Eff A) (handler : js_error -> Eff A)
    (fin : Eff unit) : Eff A :=
  fun b =>
    let '(r1, b1) := body b in
    let '(r2, b2) := match r1 with
                     | Normal a => (Normal a, b1)
                     | Throw e => handler e b1
                     end in
    let '(r3, b3) := fin b2 in
    match r3 with
    | Normal _ => (r2, b3)
    | Throw e => (Throw e, b3)
    end.

(** The cells as the handler's closure sees them. *)
Definition read : Eff AppState := fun b => (Normal (hooks b), b).

Definition update (f : AppState -> AppState) : Eff unit :=
  fun b => (Normal tt,
            {| localStorage := localStorage b; console := console b;
               hooks := f (hooks b) |}).

Definition setOnboarded (v : bool) : Eff unit :=
  update (fun s => {| onboarded := v; agentName := agentName s;
                      inputName := inputName s; drugs := drugs s;
                      loading := loading s; results := results s;
                      error := error s |}).
Definition setAgentName (v : js_string) : Eff unit :=
  update (fun s => {| onboarded := onboarded s; agentName := v;
                      inputName := inputName s; drugs := drugs s;
                      loading := loading s; results := results s;
                      error := error s |}).
Definition setInputName (v : js_string) : Eff unit :=
  update (fun s => {| onboarded := onboarded s; agentName := agentName s;
                      inputName := v; drugs := drugs s;
                      loading := loading s; results := results s;
                      error := error s |}).
Definition setDrugs (v : js_string) : Eff unit :=
  update (fun s => {| onboarded := onboarded s; agentName := agentName s;
                      inputName := inputName s; drugs := v;
                      loading := loading s; results := results s;
                      error := error s |}).
Definition setLoading (v : bool) : Eff unit :=
  update (fun s => {| onboarded := onboarded s; agentName := agentName s;
                      inputName := inputName s; drugs := drugs s;
                      loading := v; results := results s;
                      error := error s |}).
Definition setResults (v : json) : Eff unit :=
  update (fun s => {| onboarded := onboarded s; agentName := agentName s;
                      inputName := inputName s; drugs := drugs s;
                      loading := loading s; results := v;
                      error := error s |}).
Definition setError (v : option js_string) : Eff unit :=
  update (fun s => {| onboarded := onboarded s; agentName := agentName s;
                      inputName := inputName s; drugs := drugs s;
                      loading := loading s; results := results s;
                      error := v |}).

Definition localStorage_setItem (k v : js_string) : Eff unit :=
  fun b => (Normal tt,
            {| localStorage := <[k := v]> (localStorage b);
               console := console b; hooks := hooks b |}).

Definition console_error (e : js_error) : Eff unit :=
  fun b => (Normal tt,
            {| localStorage := localStorage b; console := e :: console b;
               hooks := hooks b |}).

(** The state a handler leaves behind. *)
Definition exec {A} (m : Eff A) (b : Browser) : Browser := snd (m b).

(** The first render of a page load: the lazy initialisers of the cells. *)
Definition initial_state (store : gmap js_string js_string) : AppState :=
  {| onboarded :=
       match store !! KEY_ONBOARDED with
       | Some v => strict_eq_string v (lit "true")
       | None => false
       end;
     agentName :=
       match store !! KEY_AGENT_NAME with
       | Some v => or_string v []
       | None => []
       end;
     inputName := [];
     drugs := [];
     loading := false;
     results := JNull;
     error := None |}.

Definition load (store : gmap js_string js_string) : Browser :=
  {| localStorage := store; console := []; hooks := initial_state store |}.

(** ** [handleStart] *)

Definition handleStart : Eff unit :=
  s <- read ;;
  if truthy_string (trim (inputName s)) then
    localStorage_setItem KEY_AGENT_NAME (trim (inputName s)) ;;
    localStorage_setItem KEY_ONBOARDED (lit "true") ;;
    setAgentName (trim (inputName s)) ;;
    setOnboarded true
  else ret tt.

(** ** The settings button: [localStorage.clear(); window.location.reload()] *)

Definition localStorage_clear : Eff unit :=
  fun b => (Normal tt,
            {| localStorage := ∅; console := console b; hooks := hooks b |}).

(** A reload starts the page over from what is persisted. *)
Definition reload (b : Browser) : Browser := load (localStorage b).

Definition reset (b : Browser) : Browser := reload (exec localStorage_clear b).

(** ** [checkInteractions] *)

#[warnings="-register-all"]
Inductive schema :=
| SString (description : option js_string)
| SArray (items : schema)
| SObject (properties : list (js_string * schema)) (required : list js_string).

(** The argument of [ai.models.generateContent]. *)
Record GenerateContentParameters := {
  model : js_string;
  contents : js_string;
  systemInstruction : js_string;
  responseMimeType : js_string;
  responseSchema : schema
}.

Definition newline : js_string := [0x0A].
Definition indent : js_string := lit "          ".

Definition responseSchema_literal : schema :=
  SObject
    [ (lit "interactions",
       SArray
         (SObject
            [ (lit "severity",
               SString (Some (lit "Minor, Moderate, Major, or Contraindicated")));
              (lit "drugs", SArray (SString None));
              (lit "mechanism", SString None);
              (lit "clinicalEffect", SString None);
              (lit "recommendation", SString None) ]
            [ lit "severity"; lit "drugs"; lit "mechanism";
              lit "clinicalEffect"; lit "recommendation" ]));
      (lit "summary",
       SString (Some (lit "A brief professional summary of the findings."))) ]
    [ lit "interactions"; lit "summary" ].

Definition request (drugs agentName : js_string) : GenerateContentParameters :=
  {| model := lit "gemini-3-pro-preview";
     contents :=
       lit "Analyze the following drugs for potential interactions: "
       ++ drugs ++ lit ". Provide a detailed pharmacological breakdown.";
     systemInstruction :=
       lit "You are " ++ agentName
       ++ lit ", an expert clinical pharmacist AI agent assisting pharmacy students. "
       ++ newline ++ indent
       ++ lit "Use your deep pharmacological knowledge base to identify drug-drug interactions. "
       ++ newline ++ indent
       ++ lit "Respond ONLY in JSON format following the schema provided. "
       ++ newline ++ indent
       ++ lit "Include severity levels, clinical mechanisms, and evidence-based recommendations."
       ++ newline ++ indent
       ++ lit "Be precise, professional, and emphasize patient safety.";
     responseMimeType := lit "application/json";
     responseSchema := responseSchema_literal |}.

(** How the awaited call ends: the client or the call throws, or a response
    arrives whose [text] is a string or [undefined]. *)
Inductive service_outcome :=
| Rejects (reason : js_string)
| Responds (text : option js_string).

Definition FETCH_ERROR : js_string :=
  lit "Failed to fetch interactions. Please ensure you enter valid drug names.".

(** [response.text || "{}"] *)
Definition text_or_empty_object (text : option js_string) : js_string :=
  match text with
  | Some t => or_string t (lit "{}")
  | None => lit "{}"
  end.

(** The awaited call, seen from the continuation. *)
Definition await (o : service_outcome) : Eff (option js_string) :=
  match o with
  | Rejects reason => throw (Rejection reason)
  | Responds text => ret text
  end.

Definition JSON_parse_eff (text : js_string) : Eff json :=
  match JSON_parse text with
  | Some v => ret v
  | None => throw SyntaxError
  end.

(** Up to the [await]: the guard, the three resets, the request.  [None]
    is the early return. *)
Definition checkInteractions_begin : Eff (option GenerateContentParameters) :=
  s <- read ;;
  if negb (truthy_string (trim (drugs s))) then ret None
  else
    setLoading true ;;
    setError None ;;
    setResults JNull ;;
    ret (Some (request (drugs s) (agentName s))).

(** From the [await] on: the rest of [try], then [catch] and [finally].
    The cell updates of one continuation are applied together (the root is
    made with [createRoot]), so no render sees a state in between. *)
Definition checkInteractions_settle (o : service_outcome) : Eff unit :=
  try_catch_finally
    (text <- await o ;;
     data <- JSON_parse_eff (text_or_empty_object text) ;;
     setResults data)
    (fun err =>
       console_error err ;;
       setError (Some FETCH_ERROR))
    (setLoading false).

(** One invocation run to its end, the service answering [service req]. *)
Definition checkInteractions
    (service : GenerateContentParameters -> service_outcome) : Eff unit :=
  req <- checkInteractions_begin ;;
  match req with
  | Some r => checkInteractions_settle (service r)
  | None => ret tt
  end.

(** The invocation in which [new GoogleGenAI] throws.  The constructor runs
    inside [try] before the [await], so the [try] block ends there and
    [catch] and [finally] run within the click: no call is made. *)
Definition checkInteractions_no_client (reason : js_string) : Eff unit :=
  req <- checkInteractions_begin ;;
  match req with
  | Some _ =>
      try_catch_finally
        (throw (Rejection reason))
        (fun err =>
           console_error err ;;
           setError (Some FETCH_ERROR))
        (setLoading false)
  | None => ret tt
  end.

(** The cells right after the three resets. *)
Definition loading_state (s : AppState) : AppState :=
  {| onboarded := onboarded s; agentName := agentName s;
     inputName := inputName s; drugs := drugs s;
     loading := true; results := JNull; error := None |}.

Definition with_hooks (b : Browser) (s : AppState) : Browser :=
  {| localStorage := localStorage b; console := console b; hooks := s |}.

(** Whether the awaited call or the parse of its text throws. *)
Definition throws (o : service_outcome) : bool :=
  match o with
  | Rejects _ => true
  | Responds text =>
      match JSON_parse (text_or_empty_object text) with
      | Some _ => false
      | None => true
      end
  end.

Definition thrown (o : service_outcome) : js_error :=
  match o with
  | Rejects reason => Rejection reason
  | Responds _ => SyntaxError
  end.

(** The response text is malformed with respect to the Analysis Result
    shape: absent, not JSON, or JSON without an [interactions] array or a
    [summary] string. *)
Definition well_shaped (v : json) : bool :=
  match v with
  | JObject ms =>
      match obj_get (field_name f_interactions) ms,
            obj_get (field_name f_summary) ms with
      | Some (JArray _), Some (JString _) => true
      | _, _ => false
      end
  | _ => false
  end.

Definition malformed (text : option js_string) : bool :=
  match text with
  | None => true
  | Some t =>
      match JSON_parse t with
      | Some v => negb (well_shaped v)
      | None => true
      end
  end.

(** ** Request Lifecycle State

    The states that apply to the cells: Loading while [loading] is set,
    Success while a result is stored, Failed while a message is stored, Idle
    when none of these is. *)
Inductive lifecycle :=
| Idle
| Loading
| Success (r : json)
| Failed (message : js_string).

Definition is_null (v : json) : bool :=
  match v with JNull => true | _ => false end.

Definition lifecycles (s : AppState) : list lifecycle :=
  (if loading s then [Loading] else [])
  ++ (if is_null (results s) then [] else [Success (results s)])
  ++ (match error s with Some m => [Failed m] | None => [] end)
  ++ (if negb (loading s) && is_null (results s)
         && negb (bool_decide (is_Some (error s)))
      then [Idle] else []).

(** ** What [App] returns

    The element tree, reduced to what varies with the state: which screen,
    the values and [disabled] flags of the controls, the error banner, and
    the results block with its badge, summary, cards and empty notice.
    Children are recorded as the values handed to React. *)

Definition and_then {A B} (m : completion A) (k : A -> completion B)
  : completion B :=
  match m with
  | Normal a => k a
  | Throw e => Throw e
  end.

Notation "'try!' x := m 'in' k" := (and_then m (fun x => k))
  (at level 10, x name, m at level 100, k at level 200).

(** [c && <element>]: the element when [c] is truthy, else [c] itself. *)
Inductive slot (A : Type) :=
| Bare (v : js_value)
| Boxed (a : A).
Arguments Bare {A} v.
Arguments Boxed {A} a.

Record Card := {
  chips : list json;               (* one chip per element of drugs *)
  icon_severity : js_value;        (* the severity prop of AlertIcon *)
  severity_label : js_value;
  mechanism_text : js_value;
  clinicalEffect_text : js_value;
  recommendation_text : js_value
}.

Record ResultsPanel := {
  count_badge : length_value;      (* followed by the text " Found" *)
  summary_box : slot json;
  cards : list Card;
  empty_notice : bool              (* the "No significant interactions" block *)
}.

Inductive view :=
| OnboardingScreen (name_value : js_string) (start_disabled : bool)
| MainScreen (header : js_string) (drugs_value : js_string)
             (analyze_disabled : bool) (spinner : bool)
             (error_banner : option js_string)
             (results_block : slot ResultsPanel).

Definition render_card (interaction : json) : completion Card :=
  try! ds := get (Some interaction) f_drugs in
  try! cs := array_map ds Normal in
  try! sev := get (Some interaction) f_severity in
  try! mech := get (Some interaction) f_mechanism in
  try! eff := get (Some interaction) f_clinicalEffect in
  try! rec := get (Some interaction) f_recommendation in
  Normal {| chips := cs; icon_severity := sev; severity_label := sev;
            mechanism_text := mech; clinicalEffect_text := eff;
            recommendation_text := rec |}.

(** [{results && ( ... )}] *)
Definition render_results (results : json) : completion (slot ResultsPanel) :=
  if negb (truthy (Some results)) then Normal (Bare (Some results))
  else
    try! inter := get (Some results) f_interactions in
    try! len := get_length inter in
    try! summ := get (Some results) f_summary in
    try! cs := array_map inter render_card in
    Normal (Boxed {| count_badge := len;
                     summary_box :=
                       match summ with
                       | Some v => if truthy summ then Boxed v else Bare summ
                       | None => Bare None
                       end;
                     cards := cs;
                     empty_notice := length_is_zero len |}).

(** [{error && ( ... )}] *)
Definition render_error (error : option js_string) : option js_string :=
  match error with
  | Some m => if truthy_string m then Some m else None
  | None => None
  end.

Definition start_disabled_of (s : AppState) : bool :=
  negb (truthy_string (trim (inputName s))).

Definition analyze_disabled_of (s : AppState) : bool :=
  loading s || negb (truthy_string (trim (drugs s))).

Definition App (s : AppState) : completion view :=
  if negb (onboarded s) then
    Normal (OnboardingScreen (inputName s) (start_disabled_of s))
  else
    try! block := render_results (results s) in
    Normal (MainScreen (agentName s) (drugs s) (analyze_disabled_of s)
                       (loading s) (render_error (error s)) block).

(** How React prints a number child: an array length in decimal. *)
Fixpoint uint_units (d : Decimal.uint) : js_string :=
  match d with
  | Decimal.Nil => []
  | Decimal.D0 r => 0x30 :: uint_units r
  | Decimal.D1 r => 0x31 :: uint_units r
  | Decimal.D2 r => 0x32 :: uint_units r
  | Decimal.D3 r => 0x33 :: uint_units r
  | Decimal.D4 r => 0x34 :: uint_units r
  | Decimal.D5 r => 0x35 :: uint_units r
  | Decimal.D6 r => 0x36 :: uint_units r
  | Decimal.D7 r => 0x37 :: uint_units r
  | Decimal.D8 r => 0x38 :: uint_units r
  | Decimal.D9 r => 0x39 :: uint_units r
  end.

Definition badge_text (p : ResultsPanel) : option js_string :=
  match count_badge p with
  | LenNum n => Some (uint_units (N.to_uint n) ++ lit " Found")
  | LenOther _ => None
  end.

(** The card a well-shaped record is drawn as. *)
Definition card_of (r : InteractionResult.t) : Card :=
  {| chips := map JString (InteractionResult.drugs r);
     icon_severity := Some (JString (InteractionResult.severity r));
     severity_label := Some (JString (InteractionResult.severity r));
     mechanism_text := Some (JString (InteractionResult.mechanism r));
     clinicalEffect_text := Some (JString (InteractionResult.clinicalEffect r));
     recommendation_text := Some (JString (InteractionResult.recommendation r)) |}.

(** ** A session: the page, the calls in flight, and what can happen

    A control takes an event only while it is on the screen and enabled; a
    render that throws leaves no control.  An element tree that React would
    refuse to mount (see [mounts] below) still counts as a screen here, so a
    session allows every event the page allows, and possibly more. *)

Record Session := {
  browser : Browser;
  in_flight : list GenerateContentParameters
}.

Inductive event :=
| ChangeName (v : js_string)          (* typing in the name field *)
| ClickGetStarted
| ChangeDrugs (v : js_string)         (* typing in the drugs field *)
| ClickAnalyze
| Settle (i : nat) (o : service_outcome)   (* the i-th call in flight ends *)
| ClickSettings
| Reload
| ClickAnalyzeNoClient (reason : js_string).  (* Analyze, the client failing *)

Definition screen (w : Session) : option view :=
  match App (hooks (browser w)) with
  | Normal v => Some v
  | Throw _ => None
  end.

Definition with_browser (w : Session) (b : Browser) : Session :=
  {| browser := b; in_flight := in_flight w |}.

Definition dispatch (e : event) (w : Session) : option Session :=
  let b := browser w in
  match e, screen w with
  | ChangeName v, Some (OnboardingScreen _ _) =>
      Some (with_browser w (exec (setInputName v) b))
  | ClickGetStarted, Some (OnboardingScreen _ false) =>
      Some (with_browser w (exec handleStart b))
  | ChangeDrugs v, Some (MainScreen _ _ _ _ _ _) =>
      Some (with_browser w (exec (setDrugs v) b))
  | ClickAnalyze, Some (MainScreen _ _ false _ _ _) =>
      match checkInteractions_begin b with
      | (Normal (Some req), b') =>
          Some {| browser := b'; in_flight := in_flight w ++ [req] |}
      | (_, b') => Some (with_browser w b')
      end
  | Settle i o, _ =>
      match in_flight w !! i with
      | Some _ =>
          Some {| browser := exec (checkInteractions_settle o) b;
                  in_flight := delete i (in_flight w) |}
      | None => None
      end
  | ClickSettings, Some (MainScreen _ _ _ _ _ _) =>
      Some {| browser := reset b; in_flight := [] |}
  | Reload, _ =>
      Some {| browser := reload b; in_flight := [] |}
  | ClickAnalyzeNoClient reason, Some (MainScreen _ _ false _ _ _) =>
      Some (with_browser w (exec (checkInteractions_no_client reason) b))
  | _, _ => None
  end.

Fixpoint run (es : list event) (w : Session) : option Session :=
  match es with
  | [] => Some w
  | e :: rest =>
      match dispatch e w with
      | Some w' => run rest w'
      | None => None
      end
  end.

(** A page load on a given store. *)
Definition visit (store : gmap js_string js_string) : Session :=
  {| browser := load store; in_flight := [] |}.

Definition reachable_from (w0 w : Session) : Prop :=
  exists es, run es w0 = Some w.

(** The results block of a well-shaped response. *)
Definition panel_of (r : DDIResponse.t) : ResultsPanel :=
  {| count_badge := LenNum (N.of_nat (length (DDIResponse.interactions r)));
     summary_box :=
       if truthy_string (DDIResponse.summary r)
       then Boxed (JString (DDIResponse.summary r))
       else Bare (Some (JString (DDIResponse.summary r)));
     cards := map card_of (DDIResponse.interactions r);
     empty_notice :=
       match DDIResponse.interactions r with [] => true | _ :: _ => false end |}.

(** What each event does to the session when its control is enabled; the
    relation leaves aside whether the screen could be drawn, so it covers
    every event [dispatch] lets through. *)
Inductive fires : event -> Session -> Session -> Prop :=
| fires_name v w :
    onboarded (hooks (browser w)) = false ->
    fires (ChangeName v) w (with_browser w (exec (setInputName v) (browser w)))
| fires_start w :
    onboarded (hooks (browser w)) = false ->
    truthy_string (trim (inputName (hooks (browser w)))) = true ->
    fires ClickGetStarted w (with_browser w (exec handleStart (browser w)))
| fires_drugs v w :
    onboarded (hooks (browser w)) = true ->
    fires (ChangeDrugs v) w (with_browser w (exec (setDrugs v) (browser w)))
| fires_analyze w :
    onboarded (hooks (browser w)) = true ->
    loading (hooks (browser w)) = false ->
    truthy_string (trim (drugs (hooks (browser w)))) = true ->
    fires ClickAnalyze w
          {| browser := with_hooks (browser w) (loading_state (hooks (browser w)));
             in_flight :=
               in_flight w ++ [request (drugs (hooks (browser w)))
                                       (agentName (hooks (browser w)))] |}
| fires_settle i o r w :
    in_flight w !! i = Some r ->
    fires (Settle i o) w
          {| browser := exec (checkInteractions_settle o) (browser w);
             in_flight := delete i (in_flight w) |}
| fires_settings w :
    onboarded (hooks (browser w)) = true ->
    fires ClickSettings w {| browser := reset (browser w); in_flight := [] |}
| fires_reload w :
    fires Reload w {| browser := reload (browser w); in_flight := [] |}
| fires_no_client reason w :
    onboarded (hooks (browser w)) = true ->
    loading (hooks (browser w)) = false ->
    truthy_string (trim (drugs (hooks (browser w)))) = true ->
    fires (ClickAnalyzeNoClient reason) w
          (with_browser w (exec (checkInteractions_no_client reason) (browser w))).

(** ** Invariants of a session *)

(** Either no call is in flight and loading is over, with at most one of
    result and message stored; or exactly one call is in flight, loading is
    on and neither is stored. *)
Definition single_flight (w : Session) : Prop :=
  let s := hooks (browser w) in
  (in_flight w = [] /\ loading s = false
   /\ (results s = JNull \/ error s = None))
  \/ (exists r, in_flight w = [r] /\ loading s = true
                /\ results s = JNull /\ error s = None).

(** The cells agree with the store on the onboarding keys, and a store
    flagged as onboarded holds a name that trimming leaves alone. *)
Definition name_kept (w : Session) : Prop :=
  let b := browser w in
  (onboarded (hooks b) = true ->
   localStorage b !! KEY_ONBOARDED = Some (lit "true")
   /\ localStorage b !! KEY_AGENT_NAME = Some (agentName (hooks b)))
  /\ (localStorage b !! KEY_ONBOARDED = Some (lit "true") ->
      exists name, localStorage b !! KEY_AGENT_NAME = Some name
                   /\ name <> [] /\ trim name = name).

(** The specification's wording on malformed responses: a malformed text
    always ends in Failed. *)
Definition malformed_always_fails : Prop :=
  forall service b text,
    truthy_string (trim (drugs (hooks b))) = true ->
    service (request (drugs (hooks b)) (agentName (hooks b))) = Responds text ->
    malformed text = true ->
    exists m, lifecycles (hooks (exec (checkInteractions service) b)) = [Failed m].

(** ** Worked inputs *)

(** A page onboarded as Pharmy with a drug list typed in, still holding the
    result of an earlier query. *)
Definition earlier_result : json :=
  DDIResponse.to_json
    (DDIResponse.Build
       [InteractionResult.Build (lit "Major") [lit "Warfarin"; lit "Aspirin"]
          (lit "additive bleeding risk") (lit "bleeding") (lit "avoid")]
       (lit "One interaction.")).

Definition sample_state : AppState :=
  {| onboarded := true; agentName := lit "Pharmy"; inputName := lit " Pharmy ";
     drugs := lit "Warfarin, Aspirin"; loading := false;
     results := earlier_result; error := None |}.

Definition sample_browser : Browser :=
  {| localStorage :=
       <[KEY_ONBOARDED := lit "true"]> (<[KEY_AGENT_NAME := lit "Pharmy"]> ∅);
     console := []; hooks := sample_state |}.

Definition quoted (s : string) : js_string := [0x22] ++ lit s ++ [0x22].

(** The response of scenario A, as text. *)
Definition scenario_A_text : js_string :=
  lit "{" ++ quoted "interactions" ++ lit ":[{"
  ++ quoted "severity" ++ lit ":" ++ quoted "Major" ++ lit ","
  ++ quoted "drugs" ++ lit ":[" ++ quoted "Warfarin" ++ lit ","
  ++ quoted "Aspirin" ++ lit "],"
  ++ quoted "mechanism" ++ lit ":" ++ quoted "..." ++ lit ","
  ++ quoted "clinicalEffect" ++ lit ":" ++ quoted "..." ++ lit ","
  ++ quoted "recommendation" ++ lit ":" ++ quoted "..." ++ lit "}],"
  ++ quoted "summary" ++ lit ":" ++ quoted "..." ++ lit "}".

Definition scenario_A : DDIResponse.t :=
  DDIResponse.Build
    [InteractionResult.Build (lit "Major") [lit "Warfarin"; lit "Aspirin"]
       (lit "...") (lit "...") (lit "...")]
    (lit "...").

(** The response of scenario B, as text. *)
Definition scenario_B_text : js_string :=
  lit "{" ++ quoted "interactions" ++ lit ":[],"
  ++ quoted "summary" ++ lit ":"
  ++ quoted "No significant interactions found." ++ lit "}".

Definition scenario_B : DDIResponse.t :=
  DDIResponse.Build [] (lit "No significant interactions found.").

(** A first visit in which the user types a name with spaces around it,
    starts, types a drug list and submits it. *)
Definition sample_events : list event :=
  [ ChangeName (lit "  Pharmy "); ClickGetStarted;
    ChangeDrugs (lit "Warfarin, Aspirin"); ClickAnalyze ].

Definition sample_session : Session :=
  match run sample_events (visit ∅) with
  | Some w => w
  | None => visit ∅
  end.

Definition network_down (_ : GenerateContentParameters) : service_outcome :=
  Rejects (lit "network error").

Definition no_text (_ : GenerateContentParameters) : service_outcome :=
  Responds None.

Definition answers_A (_ : GenerateContentParameters) : service_outcome :=
  Responds (Some scenario_A_text).

Definition blank_browser : Browser :=
  exec (setDrugs (lit "  " ++ newline)) sample_browser.

(** ** More of the screen *)

(** [s.charAt(i)]: the unit at index [i] as a string, or the empty string. *)
Definition charAt (s : js_string) (i : nat) : js_string :=
  match s !! i with
  | Some c => [c]
  | None => []
  end.

(** The letter in the round badge of the header,
    [agentName.charAt(0).toUpperCase()].  The case mapping is the
    built-in's and is left open. *)
Section Header.
Variable toUpperCase : js_string -> js_string.

Definition header_initial (s : AppState) : js_string :=
  toUpperCase (charAt (agentName s) 0).
End Header.

(** A string made of nothing but units that [trim] strips. *)
Definition blank (s : js_string) : bool := forallb is_trimmable s.

(** An element of [interactions] that [render_card] can draw: an object
    whose [drugs] member is an array. *)
Definition drawable_card (x : json) : Prop :=
  exists ms ds, x = JObject ms
                /\ obj_get (field_name f_drugs) ms = Some (JArray ds).

(** The only message the error cell ever holds. *)
Definition generic_error_only (w : Session) : Prop :=
  error (hooks (browser w)) = None
  \/ error (hooks (browser w)) = Some FETCH_ERROR.

(** The sample session just before the click on the submit button. *)
Definition typed_session : Session :=
  match run [ ChangeName (lit "  Pharmy "); ClickGetStarted;
              ChangeDrugs (lit "Warfarin, Aspirin") ] (visit ∅) with
  | Some w => w
  | None => visit ∅
  end.

(** A store that another page of the origin has written to. *)
Definition shared_store : gmap js_string js_string :=
  <[lit "theme" := lit "dark"]> ∅.

(** The sample session after its call was rejected. *)
Definition failed_session : Session :=
  match run (sample_events ++ [Settle 0 (Rejects (lit "network error"))])
            (visit ∅) with
  | Some w => w
  | None => visit ∅
  end.

(** The case mapping on the letters a to z alone, for worked inputs. *)
Definition ascii_toUpperCase (s : js_string) : js_string :=
  map (fun c => if N_between 0x61 0x7A c then c - 0x20 else c) s.

(** Every call in flight was made on an onboarded page, from a drug text
    that is not blank, under the agent name the page still shows. *)
Definition in_flight_well_formed (w : Session) : Prop :=
  forall r, r ∈ in_flight w ->
    onboarded (hooks (browser w)) = true
    /\ exists d, blank d = false
                 /\ r = request d (agentName (hooks (browser w))).

(** ** What React mounts

    React takes a string or a number as text, draws nothing for null,
    undefined and the booleans, takes an array element by element, and
    throws on any other object.  A parsed JSON object is never an element,
    an iterable or a promise, so it is always refused. *)

Fixpoint valid_child (v : json) : bool :=
  match v with
  | JObject _ => false
  | JArray xs => forallb valid_child xs
  | _ => true
  end.

Definition valid_value (v : js_value) : bool :=
  match v with
  | Some x => valid_child x
  | None => true
  end.

(** The children of a card: the chips, the severity label and the three
    texts.  The [severity] handed to [AlertIcon] is a prop, not a child. *)
Definition valid_card (c : Card) : bool :=
  forallb valid_child (chips c)
  && valid_value (severity_label c)
  && valid_value (mechanism_text c)
  && valid_value (clinicalEffect_text c)
  && valid_value (recommendation_text c).

Definition valid_length (l : length_value) : bool :=
  match l with
  | LenNum _ => true
  | LenOther v => valid_value v
  end.

Definition valid_slot {A} (valid : A -> bool) (sl : slot A) : bool :=
  match sl with
  | Bare v => valid_value v
  | Boxed a => valid a
  end.

Definition valid_panel (p : ResultsPanel) : bool :=
  valid_length (count_badge p)
  && valid_slot valid_child (summary_box p)
  && forallb valid_card (cards p).

(** Whether React mounts the tree [App] returned. *)
Definition mounts (v : view) : bool :=
  match v with
  | OnboardingScreen _ _ => true
  | MainScreen _ _ _ _ _ block => valid_slot valid_panel block
  end.

(** The card an object with an array under [drugs] is drawn as. *)
Definition card_of_object (ms : list (js_string * json)) (ds : list json)
  : Card :=
  {| chips := ds;
     icon_severity := obj_get (field_name f_severity) ms;
     severity_label := obj_get (field_name f_severity) ms;
     mechanism_text := obj_get (field_name f_mechanism) ms;
     clinicalEffect_text := obj_get (field_name f_clinicalEffect) ms;
     recommendation_text := obj_get (field_name f_recommendation) ms |}.

(** The summary slot: [results.summary && ( ... )]. *)
Definition summary_slot (summ : js_value) : slot json :=
  match summ with
  | Some v => if truthy summ then Boxed v else Bare summ
  | None => Bare None
  end.

(** The results block of an object whose [interactions] array [xs] is
    drawn as the cards [cs]. *)
Definition panel_of_object (ms : list (js_string * json)) (xs : list json)
    (cs : list Card) : ResultsPanel :=
  {| count_badge := LenNum (N.of_nat (length xs));
     summary_box := summary_slot (obj_get (field_name f_summary) ms);
     cards := cs;
     empty_notice := (N.of_nat (length xs) =? 0) |}.

Definition draws_as (x : json) (c : Card) : Prop :=
  exists ms ds,
    x = JObject ms
    /\ obj_get (field_name f_drugs) ms = Some (JArray ds)
    /\ c = card_of_object ms ds.

(** An element of [interactions] that is drawn and mounted: a drawable card
    none of whose children React refuses. *)
Definition mountable_card (x : json) : Prop :=
  exists ms ds,
    x = JObject ms
    /\ obj_get (field_name f_drugs) ms = Some (JArray ds)
    /\ valid_card (card_of_object ms ds) = true.

(** A stored result with the summary first and two interactions whose
    members come in another order than the interface lists them. *)
Definition minor_record : json :=
  JObject [ (lit "recommendation", JString (lit "monitor"));
            (lit "drugs", JArray [JString (lit "Ibuprofen"); JString (lit "Lisinopril")]);
            (lit "severity", JString (lit "Minor"));
            (lit "clinicalEffect", JString (lit "raised blood pressure"));
            (lit "mechanism", JString (lit "reduced prostaglandins")) ].

Definition major_record : json :=
  JObject [ (lit "severity", JString (lit "Major"));
            (lit "drugs", JArray [JString (lit "Warfarin"); JString (lit "Aspirin")]);
            (lit "mechanism", JString (lit "additive bleeding risk"));
            (lit "clinicalEffect", JString (lit "bleeding"));
            (lit "recommendation", JString (lit "avoid")) ].

Definition summary_first_members : list (js_string * json) :=
  [ (lit "summary", JString (lit "Two interactions."));
    (lit "interactions", JArray [minor_record; major_record]) ].

Definition summary_first_state : AppState :=
  {| onboarded := true; agentName := lit "Pharmy"; inputName := [];
     drugs := lit "Ibuprofen, Lisinopril, Warfarin, Aspirin";
     loading := false; results := JObject summary_first_members;
     error := None |}.

(** The sample session after a click on Analyze in which the client could
    not be constructed. *)
Definition no_client_session : Session :=
  match dispatch (ClickAnalyzeNoClient (lit "An API Key must be set"))
                 typed_session with
  | Some w => w
  | None => visit ∅
  end.

(** * Properties *)

Arguments lit : simpl never.

(** ** Facts about [trim] *)

Lemma trimStart_no_leading s : no_leading_space (trimStart s).
Proof.
  induction s as [|c rest IH]; intros d; simpl.
  - discriminate.
  - destruct (is_trimmable c) eqn:E.
    + apply IH.
    + simpl. intros [= <-]. exact E.
Qed.

Lemma trimStart_idem s : trimStart (trimStart s) = trimStart s.
Proof.
  induction s as [|c rest IH]; simpl; [reflexivity|].
  destruct (is_trimmable c) eqn:E; [exact IH|].
  simpl. now rewrite E.
Qed.

Lemma trimStart_fixed s : no_leading_space s -> trimStart s = s.
Proof.
  destruct s as [|c rest]; intros H; simpl; [reflexivity|].
  now rewrite (H c eq_refl).
Qed.

Lemma last_rev_head (s : js_string) : last_unit (rev s) = first_unit s.
Proof.
  destruct s as [|c rest]; simpl; [reflexivity|].
  unfold last_unit. now rewrite last_snoc.
Qed.

Lemma head_rev_last (s : js_string) : first_unit (rev s) = last_unit s.
Proof. rewrite <- (rev_involutive s) at 2. now rewrite last_rev_head. Qed.

Lemma trimEnd_no_trailing s : no_trailing_space (trimEnd s).
Proof.
  intros c. unfold trimEnd. rewrite last_rev_head. apply trimStart_no_leading.
Qed.

(** Stripping from the front only removes a prefix of strippable units. *)
Lemma trimStart_suffix s :
  exists pre, s = pre ++ trimStart s /\ forallb is_trimmable pre = true.
Proof.
  induction s as [|c rest (pre & E & A)]; simpl.
  - now exists [].
  - destruct (is_trimmable c) eqn:Ec.
    + exists (c :: pre). simpl. rewrite Ec, A. split; [now f_equal|reflexivity].
    + now exists [].
Qed.

Lemma trimEnd_prefix s :
  exists post, s = trimEnd s ++ post /\ forallb is_trimmable post = true.
Proof.
  destruct (trimStart_suffix (rev s)) as (pre & E & A).
  exists (rev pre). split.
  - unfold trimEnd. rewrite <- rev_app_distr, <- E. now rewrite rev_involutive.
  - rewrite forallb_forall in *. intros x Hx. apply A. now apply in_rev.
Qed.

Lemma trimEnd_keeps_head s c :
  is_trimmable c = false -> first_unit s = Some c ->
  first_unit (trimEnd s) = Some c.
Proof.
  intros Hc Hs. destruct (trimEnd_prefix s) as (post & E & A).
  destruct (trimEnd s) as [|d t] eqn:Et.
  - simpl in E. subst post. destruct s as [|x r]; [discriminate|].
    simpl in *. injection Hs as ->. rewrite Hc in A. discriminate.
  - rewrite E in Hs. simpl in *. exact Hs.
Qed.

Lemma trim_no_leading s : no_leading_space (trim s).
Proof.
  intros c Hc. unfold trim in *.
  destruct (trimStart s) as [|d t] eqn:Es.
  - discriminate.
  - pose proof (trimStart_no_leading s d) as Hd. rewrite Es in Hd.
    specialize (Hd eq_refl).
    rewrite (trimEnd_keeps_head (d :: t) d Hd eq_refl) in Hc.
    now injection Hc as <-.
Qed.

Lemma trim_no_trailing s : no_trailing_space (trim s).
Proof. apply trimEnd_no_trailing. Qed.


Lemma trimEnd_fixed s : no_trailing_space s -> trimEnd s = s.
Proof.
  intros H. unfold trimEnd. rewrite trimStart_fixed.
  - apply rev_involutive.
  - intros c Hc. apply H. now rewrite <- head_rev_last.
Qed.

Lemma trim_idem s : trim (trim s) = trim s.
Proof.
  unfold trim at 1.
  rewrite (trimStart_fixed (trim s)) by apply trim_no_leading.
  apply trimEnd_fixed, trim_no_trailing.
Qed.

(** Trimming only drops strippable units at the two ends. *)
Lemma trim_decompose s :
  exists pre post,
    s = pre ++ trim s ++ post
    /\ forallb is_trimmable pre = true
    /\ forallb is_trimmable post = true.
Proof.
  destruct (trimStart_suffix s) as (pre & E1 & A1).
  destruct (trimEnd_prefix (trimStart s)) as (post & E2 & A2).
  exists pre, post. unfold trim. now rewrite <- E2, <- E1.
Qed.

Lemma truthy_string_nonempty (s : js_string) :
  truthy_string s = true <-> s <> [].
Proof. destruct s; simpl; split; congruence. Qed.

Lemma or_string_truthy (s d : js_string) :
  truthy_string s = true -> or_string s d = s.
Proof. unfold or_string. now intros ->. Qed.

(** ** The handlers, step by step *)

Lemma begin_blank b :
  truthy_string (trim (drugs (hooks b))) = false ->
  checkInteractions_begin b = (Normal None, b).
Proof.
  intros H. unfold checkInteractions_begin, bind, read. simpl.
  now rewrite H.
Qed.

Lemma begin_nonblank b :
  truthy_string (trim (drugs (hooks b))) = true ->
  checkInteractions_begin b
  = (Normal (Some (request (drugs (hooks b)) (agentName (hooks b)))),
     with_hooks b (loading_state (hooks b))).
Proof.
  intros H. unfold checkInteractions_begin, bind, read. simpl.
  now rewrite H.
Qed.

Lemma settle_throws o b :
  throws o = true ->
  checkInteractions_settle o b
  = (Normal tt,
     {| localStorage := localStorage b;
        console := thrown o :: console b;
        hooks := {| onboarded := onboarded (hooks b);
                    agentName := agentName (hooks b);
                    inputName := inputName (hooks b);
                    drugs := drugs (hooks b);
                    loading := false;
                    results := results (hooks b);
                    error := Some FETCH_ERROR |} |}).
Proof.
  intros H. destruct o as [reason|text]; simpl in H.
  - reflexivity.
  - unfold checkInteractions_settle, try_catch_finally, bind, await,
      JSON_parse_eff, ret. simpl.
    destruct (JSON_parse (text_or_empty_object text)); [discriminate|].
    reflexivity.
Qed.

Lemma settle_parsed text v b :
  JSON_parse (text_or_empty_object text) = Some v ->
  checkInteractions_settle (Responds text) b
  = (Normal tt,
     with_hooks b {| onboarded := onboarded (hooks b);
                     agentName := agentName (hooks b);
                     inputName := inputName (hooks b);
                     drugs := drugs (hooks b);
                     loading := false;
                     results := v;
                     error := error (hooks b) |}).
Proof.
  intros H.
  unfold checkInteractions_settle, try_catch_finally, bind, await,
    JSON_parse_eff, ret. simpl. rewrite H. reflexivity.
Qed.

Lemma checkInteractions_nonblank service b :
  truthy_string (trim (drugs (hooks b))) = true ->
  checkInteractions service b
  = checkInteractions_settle
      (service (request (drugs (hooks b)) (agentName (hooks b))))
      (with_hooks b (loading_state (hooks b))).
Proof.
  intros H. unfold checkInteractions, bind.
  now rewrite (begin_nonblank b H).
Qed.

Lemma checkInteractions_blank service b :
  truthy_string (trim (drugs (hooks b))) = false ->
  checkInteractions service b = (Normal tt, b).
Proof.
  intros H. unfold checkInteractions, bind.
  now rewrite (begin_blank b H).
Qed.

Lemma no_client_as_rejection reason b :
  checkInteractions_no_client reason b
  = checkInteractions (fun _ => Rejects reason) b.
Proof.
  unfold checkInteractions_no_client, checkInteractions, bind.
  destruct (checkInteractions_begin b) as [[[r|]|e] b']; reflexivity.
Qed.

Lemma no_client_nonblank reason b :
  truthy_string (trim (drugs (hooks b))) = true ->
  checkInteractions_no_client reason b
  = (Normal tt,
     {| localStorage := localStorage b;
        console := Rejection reason :: console b;
        hooks := {| onboarded := onboarded (hooks b);
                    agentName := agentName (hooks b);
                    inputName := inputName (hooks b);
                    drugs := drugs (hooks b);
                    loading := false;
                    results := JNull;
                    error := Some FETCH_ERROR |} |}).
Proof.
  intros H. rewrite no_client_as_rejection, (checkInteractions_nonblank _ _ H).
  now rewrite settle_throws.
Qed.

(** ** The query controller *)

(** C1. When the service call or the parsing of its text throws, the
    invocation ends in Failed with exactly the generic message, the stored
    result is null and loading is over, whatever result was stored before. *)
Theorem checkInteractions_failure service b :
  truthy_string (trim (drugs (hooks b))) = true ->
  throws (service (request (drugs (hooks b)) (agentName (hooks b)))) = true ->
  let b' := exec (checkInteractions service) b in
  lifecycles (hooks b') = [Failed FETCH_ERROR]
  /\ error (hooks b') = Some FETCH_ERROR
  /\ results (hooks b') = JNull
  /\ loading (hooks b') = false.
Proof.
  intros Hd Ht. unfold exec. rewrite (checkInteractions_nonblank _ _ Hd).
  rewrite (settle_throws _ _ Ht). simpl. auto.
Qed.

(** C2, as amended. When the text of the response is not valid JSON the
    invocation ends in Failed with a null result; when it is valid JSON, of
    whatever shape, the parsed value is stored as the result and no message
    is set. An absent or empty text is parsed as the two characters of an
    empty object. *)
Theorem checkInteractions_response service b text :
  truthy_string (trim (drugs (hooks b))) = true ->
  service (request (drugs (hooks b)) (agentName (hooks b))) = Responds text ->
  let b' := exec (checkInteractions service) b in
  match JSON_parse (text_or_empty_object text) with
  | None =>
      lifecycles (hooks b') = [Failed FETCH_ERROR] /\ results (hooks b') = JNull
  | Some v =>
      results (hooks b') = v /\ error (hooks b') = None
      /\ loading (hooks b') = false
  end.
Proof.
  intros Hd Hs. unfold exec. rewrite (checkInteractions_nonblank _ _ Hd), Hs.
  destruct (JSON_parse (text_or_empty_object text)) as [v|] eqn:E.
  - rewrite (settle_parsed _ _ _ E). simpl. auto.
  - rewrite settle_throws by (simpl; now rewrite E). simpl. auto.
Qed.

(** C3. With drug text that trims to the empty string, checkInteractions
    returns at once: no request is built, no cell changes, and the submit
    button is disabled, so a click on it delivers no event. *)
Theorem checkInteractions_blank_input service b :
  trim (drugs (hooks b)) = [] ->
  checkInteractions_begin b = (Normal None, b)
  /\ checkInteractions service b = (Normal tt, b)
  /\ analyze_disabled_of (hooks b) = true
  /\ forall calls, dispatch ClickAnalyze {| browser := b; in_flight := calls |} = None.
Proof.
  intros H.
  assert (Hf : truthy_string (trim (drugs (hooks b))) = false) by now rewrite H.
  repeat split.
  - now apply begin_blank.
  - now apply checkInteractions_blank.
  - unfold analyze_disabled_of. rewrite Hf. apply orb_true_r.
  - intros calls. unfold dispatch, screen, App. simpl.
    destruct (onboarded (hooks b)); simpl; [|reflexivity].
    destruct (render_results (results (hooks b))) as [blk|e]; simpl;
      [|reflexivity].
    unfold analyze_disabled_of. rewrite Hf, orb_true_r. reflexivity.
Qed.

(** C9. Two invocations in a row on the same drug text, the service
    answering both with the same parseable text, leave the same state: the
    second run ends exactly where the first did, holding the parsed value
    once. *)
Theorem checkInteractions_idempotent service1 service2 b text v :
  truthy_string (trim (drugs (hooks b))) = true ->
  service1 (request (drugs (hooks b)) (agentName (hooks b))) = Responds text ->
  service2 (request (drugs (hooks b)) (agentName (hooks b))) = Responds text ->
  JSON_parse (text_or_empty_object text) = Some v ->
  let once := exec (checkInteractions service1) b in
  let twice := exec (checkInteractions service2) once in
  twice = once
  /\ results (hooks once) = v
  /\ error (hooks once) = None
  /\ loading (hooks once) = false
  /\ drugs (hooks once) = drugs (hooks b)
  /\ lifecycles (hooks once) = (if is_null v then [Idle] else [Success v]).
Proof.
  intros Hd H1 H2 Hp once twice. subst twice once. unfold exec.
  rewrite (checkInteractions_nonblank service1 b Hd), H1.
  rewrite (settle_parsed _ _ _ Hp). cbn [snd].
  rewrite checkInteractions_nonblank by exact Hd.
  cbn [with_hooks hooks drugs agentName loading_state]. rewrite H2.
  rewrite (settle_parsed _ _ _ Hp). simpl. repeat split.
  unfold lifecycles. simpl. now destruct (is_null v).
Qed.

(** ** Onboarding and reset *)

Lemma handleStart_blank b :
  truthy_string (trim (inputName (hooks b))) = false ->
  handleStart b = (Normal tt, b).
Proof.
  intros H. unfold handleStart, bind, read. simpl. now rewrite H.
Qed.

Lemma handleStart_named b :
  truthy_string (trim (inputName (hooks b))) = true ->
  handleStart b
  = (Normal tt,
     {| localStorage :=
          <[KEY_ONBOARDED := lit "true"]>
            (<[KEY_AGENT_NAME := trim (inputName (hooks b))]> (localStorage b));
        console := console b;
        hooks := {| onboarded := true;
                    agentName := trim (inputName (hooks b));
                    inputName := inputName (hooks b);
                    drugs := drugs (hooks b);
                    loading := loading (hooks b);
                    results := results (hooks b);
                    error := error (hooks b) |} |}).
Proof.
  intros H. unfold handleStart, bind, read. simpl. now rewrite H.
Qed.

Lemma KEY_distinct : KEY_ONBOARDED <> KEY_AGENT_NAME.
Proof. discriminate. Qed.

Lemma true_is_true : strict_eq_string (lit "true") (lit "true") = true.
Proof. unfold strict_eq_string. now apply bool_decide_eq_true. Qed.

Lemma stored_name (store : gmap js_string js_string) (name : js_string) :
  (<[KEY_ONBOARDED := lit "true"]> (<[KEY_AGENT_NAME := name]> store))
  !! KEY_AGENT_NAME = Some name.
Proof. rewrite lookup_insert_ne by apply KEY_distinct. apply lookup_insert_eq. Qed.

Lemma stored_flag (store : gmap js_string js_string) (name : js_string) :
  (<[KEY_ONBOARDED := lit "true"]> (<[KEY_AGENT_NAME := name]> store))
  !! KEY_ONBOARDED = Some (lit "true").
Proof. apply lookup_insert_eq. Qed.

(** C6. When the typed name trims to a non-empty string, handleStart writes
    the trimmed name and the flag into the store, sets the two cells, and a
    later page load starts onboarded; when it trims to the empty string,
    store and cells are left as they were. *)
Theorem handleStart_spec b :
  let name := trim (inputName (hooks b)) in
  let b' := exec handleStart b in
  if truthy_string name then
    localStorage b'
    = <[KEY_ONBOARDED := lit "true"]> (<[KEY_AGENT_NAME := name]> (localStorage b))
    /\ localStorage b' !! KEY_AGENT_NAME = Some name
    /\ localStorage b' !! KEY_ONBOARDED = Some (lit "true")
    /\ onboarded (hooks b') = true
    /\ agentName (hooks b') = name
    /\ onboarded (hooks (reload b')) = true
    /\ agentName (hooks (reload b')) = name
  else b' = b.
Proof.
  intros name b'. subst name b'. unfold exec.
  destruct (truthy_string (trim (inputName (hooks b)))) eqn:H.
  - rewrite (handleStart_named b H). cbn [snd localStorage hooks onboarded agentName].
    pose proof (stored_name (localStorage b) (trim (inputName (hooks b)))) as Ha.
    pose proof (stored_flag (localStorage b) (trim (inputName (hooks b)))) as Ho.
    repeat split; try assumption.
    + unfold reload, load, initial_state. cbn [hooks localStorage onboarded].
      rewrite Ho. apply true_is_true.
    + unfold reload, load, initial_state. cbn [hooks localStorage agentName].
      rewrite Ha. now apply or_string_truthy.
  - now rewrite (handleStart_blank b H).
Qed.

(** C8. The settings button empties the whole store, whatever keys it
    held, and the page that loads afterwards reads onboarded as false and
    shows the onboarding screen; so does every later load. *)
Theorem reset_clears_everything b :
  localStorage (reset b) = ∅
  /\ (forall k, localStorage (reset b) !! k = None)
  /\ onboarded (hooks (reset b)) = false
  /\ agentName (hooks (reset b)) = []
  /\ App (hooks (reset b)) = Normal (OnboardingScreen [] true)
  /\ reload (reset b) = reset b.
Proof.
  unfold reset, reload, exec, localStorage_clear, load, initial_state.
  cbn [snd localStorage hooks onboarded agentName].
  rewrite !lookup_empty. repeat split.
Qed.

(** ** Rendering *)

Lemma AlertIcon_fallback severity :
  assoc severity colors = None ->
  severity ∉ Object_prototype_names ->
  AlertIcon severity = OwnString (lit "text-gray-500").
Proof.
  intros Hc Hp. unfold AlertIcon, colors_get. rewrite Hc.
  now rewrite bool_decide_eq_false_2.
Qed.

Lemma AlertIcon_inherited severity :
  severity ∈ Object_prototype_names ->
  AlertIcon severity = Inherited severity.
Proof.
  intros H. unfold Object_prototype_names in H.
  repeat (apply elem_of_cons in H as [-> | H]; [reflexivity|]).
  now apply elem_of_nil in H.
Qed.

(** C4. The class of the icon is a function of the severity string alone.
    The four known values have their own class, and a string that is
    neither one of them nor a property name of Object.prototype gets the
    gray fallback. A string that names a property of Object.prototype, such
    as constructor, does not: the lookup finds the inherited member, which
    is truthy, and the fallback is skipped. *)
Theorem AlertIcon_tiers :
  AlertIcon (lit "Minor") = OwnString (lit "text-blue-500")
  /\ AlertIcon (lit "Moderate") = OwnString (lit "text-yellow-500")
  /\ AlertIcon (lit "Major") = OwnString (lit "text-orange-500")
  /\ AlertIcon (lit "Contraindicated") = OwnString (lit "text-red-600")
  /\ (forall severity,
        assoc severity colors = None ->
        AlertIcon severity
        = if bool_decide (severity ∈ Object_prototype_names)
          then Inherited severity
          else OwnString (lit "text-gray-500"))
  /\ assoc (lit "constructor") colors = None
  /\ AlertIcon (lit "constructor") = Inherited (lit "constructor")
  /\ AlertIcon (lit "constructor") <> OwnString (lit "text-gray-500").
Proof.
  repeat split; try reflexivity; try discriminate.
  intros severity Hc. case_bool_decide as Hp.
  - now apply AlertIcon_inherited.
  - now apply AlertIcon_fallback.
Qed.

Lemma map_completion_Normal {A} (xs : list A) :
  map_completion Normal xs = Normal xs.
Proof. induction xs as [|x rest IH]; simpl; [reflexivity|now rewrite IH]. Qed.

Lemma map_completion_map {A B C} (g : A -> B) (f : B -> completion C) h
    (xs : list A) :
  (forall x, f (g x) = Normal (h x)) ->
  map_completion f (map g xs) = Normal (map h xs).
Proof.
  intros H. induction xs as [|x rest IH]; simpl; [reflexivity|].
  now rewrite H, IH.
Qed.

Lemma render_card_well_shaped (r : InteractionResult.t) :
  render_card (InteractionResult.to_json r) = Normal (card_of r).
Proof.
  destruct r as [sev ds mech eff rec].
  unfold render_card, InteractionResult.to_json, card_of.
  cbn [get and_then]. 
  change (obj_get (field_name f_drugs) _) with (Some (JArray (map JString ds))).
  cbn [array_map and_then]. rewrite map_completion_Normal.
  reflexivity.
Qed.

Lemma render_results_well_shaped (r : DDIResponse.t) :
  render_results (DDIResponse.to_json r) = Normal (Boxed (panel_of r)).
Proof.
  destruct r as [rs summ].
  unfold render_results, DDIResponse.to_json, panel_of.
  cbn [truthy negb get and_then DDIResponse.interactions DDIResponse.summary].
  change (obj_get (field_name f_interactions) _)
    with (Some (JArray (map InteractionResult.to_json rs))).
  change (obj_get (field_name f_summary) _) with (Some (JString summ)).
  cbn [get_length and_then array_map].
  rewrite (map_completion_map _ _ card_of) by apply render_card_well_shaped.
  cbn [and_then truthy length_is_zero]. rewrite length_map.
  repeat f_equal. now destruct rs.
Qed.

Lemma map_completion_Forall2 {A B} (f : A -> completion B) xs ys :
  map_completion f xs = Normal ys ->
  Forall2 (fun x y => f x = Normal y) xs ys.
Proof.
  revert ys. induction xs as [|x rest IH]; intros ys H; simpl in H.
  - injection H as <-. constructor.
  - destruct (f x) as [y|e] eqn:Ex; [|discriminate].
    destruct (map_completion f rest) as [ys'|e]; [|discriminate].
    injection H as <-. constructor; [exact Ex|now apply IH].
Qed.

(** Whenever a results block is drawn at all, the stored value is an object
    whose [interactions] member is an array, and the block has one card per
    element, in order, under a badge with the length of the array. *)
Lemma render_results_boxed v p :
  render_results v = Normal (Boxed p) ->
  exists ms xs,
    v = JObject ms
    /\ obj_get (field_name f_interactions) ms = Some (JArray xs)
    /\ count_badge p = LenNum (N.of_nat (length xs))
    /\ Forall2 (fun x c => render_card x = Normal c) xs (cards p)
    /\ empty_notice p = (N.of_nat (length xs) =? 0).
Proof.
  unfold render_results.
  destruct (truthy (Some v)); cbn [negb]; [|discriminate].
  destruct v as [|b|n|str|items|ms]; cbn [get get_length and_then];
    try discriminate.
  destruct (obj_get (field_name f_interactions) ms)
    as [[|b|n|str|xs|ms']|] eqn:Ei;
    cbn [get_length array_map and_then]; try discriminate.
  destruct (map_completion render_card xs) as [cs|e] eqn:Ec;
    cbn [and_then]; [|discriminate].
  intros [= <-]. exists ms, xs. cbn [count_badge cards empty_notice length_is_zero].
  split; [reflexivity|]. split; [exact Ei|]. split; [reflexivity|].
  split; [now apply map_completion_Forall2|reflexivity].
Qed.

Lemma render_card_object ms :
  render_card (JObject ms)
  = match obj_get (field_name f_drugs) ms with
    | Some (JArray ds) =>
        Normal {| chips := ds;
                  icon_severity := obj_get (field_name f_severity) ms;
                  severity_label := obj_get (field_name f_severity) ms;
                  mechanism_text := obj_get (field_name f_mechanism) ms;
                  clinicalEffect_text := obj_get (field_name f_clinicalEffect) ms;
                  recommendation_text := obj_get (field_name f_recommendation) ms |}
    | _ => Throw TypeError
    end.
Proof.
  unfold render_card. cbn [get and_then].
  destruct (obj_get (field_name f_drugs) ms) as [[|b|n|str|ds|ms']|];
    cbn [array_map and_then]; try reflexivity.
  rewrite map_completion_Normal. reflexivity.
Qed.

Lemma render_card_draws_as x c : render_card x = Normal c -> draws_as x c.
Proof.
  destruct x as [|b|n|str|items|ms]; try discriminate.
  rewrite render_card_object.
  destruct (obj_get (field_name f_drugs) ms) as [[|b|n|str|ds|ms']|] eqn:E;
    try discriminate.
  intros [= <-]. now exists ms, ds.
Qed.

Lemma cards_draw_in_order xs cs :
  map_completion render_card xs = Normal cs -> Forall2 draws_as xs cs.
Proof.
  intros H. apply map_completion_Forall2 in H.
  eapply Forall2_impl; [exact H|]. intros x c. apply render_card_draws_as.
Qed.

Lemma drawable_cards_draw xs :
  Forall drawable_card xs -> exists cs, map_completion render_card xs = Normal cs.
Proof.
  induction 1 as [|x rest (ms & ds & -> & E) _ [cs IH]]; simpl.
  - eauto.
  - rewrite render_card_object, E, IH. eauto.
Qed.

Lemma render_results_object ms xs cs :
  obj_get (field_name f_interactions) ms = Some (JArray xs) ->
  map_completion render_card xs = Normal cs ->
  render_results (JObject ms) = Normal (Boxed (panel_of_object ms xs cs)).
Proof.
  intros Hi Hc. unfold render_results.
  cbn [truthy negb get and_then]. rewrite Hi.
  cbn [get_length array_map and_then]. rewrite Hc. reflexivity.
Qed.

Lemma valid_strings (ds : list js_string) :
  forallb valid_child (map JString ds) = true.
Proof. induction ds as [|d rest IH]; simpl; [reflexivity|exact IH]. Qed.

Lemma valid_card_of (r : InteractionResult.t) : valid_card (card_of r) = true.
Proof.
  unfold valid_card, card_of. cbn [chips severity_label mechanism_text
    clinicalEffect_text recommendation_text valid_value valid_child].
  now rewrite valid_strings.
Qed.

Lemma valid_panel_of (r : DDIResponse.t) : valid_panel (panel_of r) = true.
Proof.
  unfold valid_panel, panel_of. cbn [count_badge summary_box cards valid_length].
  assert (Hs : valid_slot valid_child
                 (if truthy_string (DDIResponse.summary r)
                  then Boxed (JString (DDIResponse.summary r))
                  else Bare (Some (JString (DDIResponse.summary r)))) = true)
    by (destruct (truthy_string _); reflexivity).
  rewrite Hs. cbn [andb].
  induction (DDIResponse.interactions r) as [|x rest IH]; simpl; [reflexivity|].
  now rewrite valid_card_of, IH.
Qed.

(** C5. Whenever the stored result is an object whose interactions member
    is an array of objects that each carry an array under drugs, whatever
    the order of the members, the main screen holds a results block with
    one card per element of the array, each drawn from its own element and
    in the order of the array, under a badge that counts them; with an
    empty array the badge reads 0 Found, no card is drawn and the notice
    for an empty result is shown. The error banner depends on the error
    cell only and is absent when that cell is null. React mounts the block
    exactly when neither the summary nor a child of a card is a JSON
    object, which is always so for a result of the declared shape, whose
    cards are those of its records. Whatever value is stored, a results
    block that is drawn has as many cards as the interactions array has
    elements. *)
Theorem App_success_view (s : AppState) ms xs :
  onboarded s = true ->
  results s = JObject ms ->
  obj_get (field_name f_interactions) ms = Some (JArray xs) ->
  Forall drawable_card xs ->
  exists p,
    App s = Normal (MainScreen (agentName s) (drugs s) (analyze_disabled_of s)
                               (loading s) (render_error (error s)) (Boxed p))
    /\ Forall2 draws_as xs (cards p)
    /\ length (cards p) = length xs
    /\ count_badge p = LenNum (N.of_nat (length xs))
    /\ badge_text p
       = Some (uint_units (N.to_uint (N.of_nat (length xs))) ++ lit " Found")
    /\ match xs with
       | [] => badge_text p = Some (lit "0 Found") /\ cards p = []
               /\ empty_notice p = true
       | _ :: _ => empty_notice p = false
       end
    /\ (error s = None -> render_error (error s) = None)
    /\ valid_panel p
       = valid_value (obj_get (field_name f_summary) ms)
         && forallb valid_card (cards p)
    /\ (forall r,
          JObject ms = DDIResponse.to_json r ->
          cards p = map card_of (DDIResponse.interactions r)
          /\ valid_panel p = true)
    /\ (forall v q,
          render_results v = Normal (Boxed q) ->
          exists ms' xs',
            v = JObject ms'
            /\ obj_get (field_name f_interactions) ms' = Some (JArray xs')
            /\ length (cards q) = length xs'
            /\ count_badge q = LenNum (N.of_nat (length xs'))).
Proof.
  intros Ho Hr Hi Hd.
  destruct (drawable_cards_draw xs Hd) as [cs Hc].
  pose proof (render_results_object ms xs cs Hi Hc) as Hrr.
  pose proof (cards_draw_in_order xs cs Hc) as Hord.
  exists (panel_of_object ms xs cs).
  split; [unfold App; rewrite Ho, Hr, Hrr; reflexivity|].
  unfold badge_text.
  cbn [panel_of_object cards count_badge empty_notice summary_box].
  split; [exact Hord|].
  split; [symmetry; eapply Forall2_length, Hord|].
  split; [reflexivity|]. split; [reflexivity|].
  split.
  { destruct xs as [|x rest]; [|reflexivity].
    inversion Hord; subst. auto. }
  split; [now intros ->|].
  split.
  { unfold valid_panel, panel_of_object.
    cbn [count_badge summary_box cards valid_length andb].
    f_equal. unfold summary_slot.
    destruct (obj_get (field_name f_summary) ms) as [v|]; [|reflexivity].
    now destruct (truthy (Some v)). }
  split.
  - intros r Hj.
    assert (Hp : panel_of_object ms xs cs = panel_of r)
      by (rewrite Hj, render_results_well_shaped in Hrr; congruence).
    split.
    + transitivity (cards (panel_of_object ms xs cs)); [reflexivity|].
      now rewrite Hp.
    + transitivity (valid_panel (panel_of_object ms xs cs)); [reflexivity|].
      rewrite Hp. apply valid_panel_of.
  - intros v q Hq.
    destruct (render_results_boxed v q Hq) as (ms' & xs' & -> & Hi' & Hb & Hc' & _).
    exists ms', xs'. repeat split; try assumption.
    symmetry. eapply Forall2_length, Hc'.
Qed.

(** ** Sessions *)

Lemma screen_onboarding w n d :
  screen w = Some (OnboardingScreen n d) ->
  onboarded (hooks (browser w)) = false
  /\ d = start_disabled_of (hooks (browser w)).
Proof.
  unfold screen, App. destruct (onboarded (hooks (browser w))); simpl.
  - destruct (render_results _); simpl; discriminate.
  - intros [= <- <-]. auto.
Qed.

Lemma screen_main w h d dis sp eb blk :
  screen w = Some (MainScreen h d dis sp eb blk) ->
  onboarded (hooks (browser w)) = true
  /\ dis = analyze_disabled_of (hooks (browser w)).
Proof.
  unfold screen, App. destruct (onboarded (hooks (browser w))); simpl.
  - destruct (render_results _); simpl; [|discriminate].
    intros [= <- <- <- <- <- <-]. auto.
  - discriminate.
Qed.

Lemma throws_or_parsed o :
  throws o = true
  \/ exists text v, o = Responds text
                    /\ JSON_parse (text_or_empty_object text) = Some v.
Proof.
  destruct o as [reason|text]; simpl; [now left|].
  destruct (JSON_parse (text_or_empty_object text)) as [v|] eqn:E; eauto.
Qed.

Lemma dispatch_fires e w w' : dispatch e w = Some w' -> fires e w w'.
Proof.
  unfold dispatch. intros H.
  destruct e as [v| |v| |i o| | |reason].
  - destruct (screen w) as [[n d|? ? ? ? ? ?]|] eqn:Hs; try discriminate.
    injection H as <-. apply screen_onboarding in Hs as [Ho _].
    now constructor.
  - destruct (screen w) as [[n [|]|? ? ? ? ? ?]|] eqn:Hs; try discriminate.
    injection H as <-. apply screen_onboarding in Hs as [Ho Hd].
    constructor; [exact Ho|]. unfold start_disabled_of in Hd.
    now destruct (truthy_string _).
  - destruct (screen w) as [[n d|? ? ? ? ? ?]|] eqn:Hs; try discriminate.
    injection H as <-. apply screen_main in Hs as [Ho _].
    now constructor.
  - destruct (screen w) as [[n d|? ? [|] ? ? ?]|] eqn:Hs; try discriminate.
    apply screen_main in Hs as [Ho Hd]. unfold analyze_disabled_of in Hd.
    symmetry in Hd. apply orb_false_elim in Hd as [Hl Ht].
    apply negb_false_iff in Ht.
    rewrite (begin_nonblank _ Ht) in H. injection H as <-.
    now constructor.
  - destruct (in_flight w !! i) as [r|] eqn:Hi.
    + assert (w' = {| browser := exec (checkInteractions_settle o) (browser w);
                      in_flight := delete i (in_flight w) |}) as ->
        by (destruct (screen w) as [[? ?|? ? ? ? ? ?]|]; congruence).
      econstructor; eassumption.
    + destruct (screen w) as [[? ?|? ? ? ? ? ?]|]; discriminate.
  - destruct (screen w) as [[n d|? ? ? ? ? ?]|] eqn:Hs; try discriminate.
    injection H as <-. apply screen_main in Hs as [Ho _].
    now constructor.
  - assert (w' = {| browser := reload (browser w); in_flight := [] |}) as ->
      by (destruct (screen w) as [[? ?|? ? ? ? ? ?]|]; congruence).
    constructor.
  - destruct (screen w) as [[n d|? ? [|] ? ? ?]|] eqn:Hs; try discriminate.
    injection H as <-. apply screen_main in Hs as [Ho Hd].
    unfold analyze_disabled_of in Hd.
    symmetry in Hd. apply orb_false_elim in Hd as [Hl Ht].
    apply negb_false_iff in Ht. now constructor.
Qed.

(** An invariant of enabled events holds wherever a run ends. *)
Lemma run_invariant (P : Session -> Prop) :
  (forall e w w', P w -> fires e w w' -> P w') ->
  forall es w w', P w -> run es w = Some w' -> P w'.
Proof.
  intros Hstep es. induction es as [|e rest IH]; intros w w' Hw H; simpl in H.
  - now injection H as <-.
  - destruct (dispatch e w) as [w1|] eqn:Hd; [|discriminate].
    eapply IH; [|exact H]. apply (Hstep e w w1 Hw).
    apply dispatch_fires, Hd.
Qed.

(** *** Single flight *)

Lemma single_flight_visit store : single_flight (visit store).
Proof. left. simpl. auto. Qed.

Lemma single_flight_fires e w w' :
  single_flight w -> fires e w w' -> single_flight w'.
Proof.
  intros Hw Hf. destruct Hf as [v w Ho|w Ho Ht|v w Ho|w Ho Hl Ht|i o r w Hi|w Ho|w|reason w Ho Hl Ht].
  - exact Hw.
  - unfold exec. rewrite (handleStart_named _ Ht). exact Hw.
  - exact Hw.
  - destruct Hw as [(Hq & _)|(r & _ & Hl' & _)]; [|congruence].
    right. exists (request (drugs (hooks (browser w))) (agentName (hooks (browser w)))).
    rewrite Hq. simpl. auto.
  - destruct Hw as [(Hq & _)|(r' & Hq & Hl & Hr & He)].
    + rewrite Hq in Hi. discriminate.
    + rewrite Hq in Hi. destruct i as [|i]; [|discriminate].
      left. rewrite Hq. unfold exec.
      destruct (throws_or_parsed o) as [Ht|(text & v & -> & Hp)].
      * rewrite (settle_throws _ _ Ht). simpl. auto.
      * rewrite (settle_parsed _ _ _ Hp). simpl. auto.
  - apply single_flight_visit.
  - apply single_flight_visit.
  - destruct Hw as [(Hq & _)|(r & _ & Hl' & _)]; [|congruence].
    left. unfold exec. rewrite (no_client_nonblank _ _ Ht). simpl. auto.
Qed.

Lemma single_flight_reachable store w :
  reachable_from (visit store) w -> single_flight w.
Proof.
  intros [es H]. eapply (run_invariant single_flight); [|apply single_flight_visit|exact H].
  intros e w1 w2. apply single_flight_fires.
Qed.

Lemma single_flight_lifecycle w :
  single_flight w -> exists l, lifecycles (hooks (browser w)) = [l].
Proof.
  unfold lifecycles.
  intros [(_ & Hl & [Hr|He])|(r & _ & Hl & Hr & He)]; rewrite Hl.
  - rewrite Hr. destruct (error (hooks (browser w))); simpl; eauto.
  - rewrite He. destruct (is_null (results (hooks (browser w)))); simpl; eauto.
  - rewrite Hr, He. simpl. eauto.
Qed.

(** C7. In every state a session reaches, exactly one of Idle, Loading,
    Success and Failed applies; and the start of a query on drug text that
    does not trim to the empty string always leads to Loading alone, with
    the stored result and the stored message both cleared. *)
Theorem request_lifecycle_invariant store w :
  reachable_from (visit store) w ->
  (exists l, lifecycles (hooks (browser w)) = [l])
  /\ (forall b,
        truthy_string (trim (drugs (hooks b))) = true ->
        let b' := exec checkInteractions_begin b in
        lifecycles (hooks b') = [Loading]
        /\ loading (hooks b') = true
        /\ results (hooks b') = JNull
        /\ error (hooks b') = None).
Proof.
  intros H. split.
  - apply single_flight_lifecycle, (single_flight_reachable store), H.
  - intros b Ht. unfold exec. rewrite (begin_nonblank _ Ht). simpl. auto.
Qed.

(** *** The agent name *)

Lemma strict_eq_string_true (a b : js_string) :
  strict_eq_string a b = true -> a = b.
Proof. unfold strict_eq_string. apply bool_decide_eq_true_1. Qed.

Lemma name_kept_load store :
  (store !! KEY_ONBOARDED = Some (lit "true") ->
   exists name, store !! KEY_AGENT_NAME = Some name
                /\ name <> [] /\ trim name = name) ->
  name_kept (visit store).
Proof.
  intros H. split; [|exact H]. simpl.
  destruct (store !! KEY_ONBOARDED) as [v|] eqn:Ev; [|discriminate].
  intros Hv. apply strict_eq_string_true in Hv. subst v.
  destruct (H eq_refl) as (name & Hn & Hne & _). rewrite Hn.
  split; [reflexivity|]. f_equal. symmetry. apply or_string_truthy.
  now apply truthy_string_nonempty.
Qed.

Lemma name_kept_hooks w s :
  name_kept w ->
  onboarded s = onboarded (hooks (browser w)) ->
  agentName s = agentName (hooks (browser w)) ->
  forall calls,
    name_kept {| browser := with_hooks (browser w) s; in_flight := calls |}.
Proof.
  intros [H1 H2] Ho Ha calls. split; simpl; rewrite ?Ho, ?Ha; assumption.
Qed.

Lemma name_kept_fires e w w' : name_kept w -> fires e w w' -> name_kept w'.
Proof.
  intros Hw Hf. destruct Hf as [v w Ho|w Ho Ht|v w Ho|w Ho Hl Ht|i o r w Hi|w Ho|w|reason w Ho Hl Ht].
  - now apply (name_kept_hooks w).
  - unfold exec. rewrite (handleStart_named _ Ht).
    pose proof (stored_name (localStorage (browser w))
                            (trim (inputName (hooks (browser w))))) as Ha.
    pose proof (stored_flag (localStorage (browser w))
                            (trim (inputName (hooks (browser w))))) as Hk.
    split; simpl in *.
    + auto.
    + intros _. exists (trim (inputName (hooks (browser w)))).
      split; [exact Ha|]. split; [now apply truthy_string_nonempty|apply trim_idem].
  - now apply (name_kept_hooks w).
  - now apply (name_kept_hooks w).
  - unfold exec. destruct (throws_or_parsed o) as [Ht|(text & v & -> & Hp)].
    + rewrite (settle_throws _ _ Ht). destruct Hw as [H1 H2]. split; assumption.
    + rewrite (settle_parsed _ _ _ Hp). now apply (name_kept_hooks w).
  - apply name_kept_load. simpl. rewrite lookup_empty. discriminate.
  - apply name_kept_load. apply Hw.
  - unfold exec. rewrite (no_client_nonblank _ _ Ht).
    destruct Hw as [H1 H2]. split; assumption.
Qed.

Lemma name_kept_reachable store w :
  store !! KEY_ONBOARDED <> Some (lit "true") ->
  reachable_from (visit store) w -> name_kept w.
Proof.
  intros Hs [es H].
  eapply (run_invariant name_kept); [|apply name_kept_load|exact H].
  - intros e w1 w2. apply name_kept_fires.
  - intros Hc. now destruct Hs.
Qed.

(** C10. In a session that began before onboarding, whenever the page is
    onboarded the agent name in the cell is the value persisted under
    d-di-agent-name, it is non-empty, and it has no leading or trailing
    white space: trimming it changes nothing. It got there as the trimmed
    form of the typed name: a click on Get Started stores exactly that in
    the cell and in the store. *)
Theorem agent_name_trimmed store w :
  store !! KEY_ONBOARDED <> Some (lit "true") ->
  reachable_from (visit store) w ->
  onboarded (hooks (browser w)) = true ->
  let name := agentName (hooks (browser w)) in
  localStorage (browser w) !! KEY_AGENT_NAME = Some name
  /\ name <> []
  /\ trim name = name
  /\ no_leading_space name
  /\ no_trailing_space name
  /\ (forall w0 w1,
        dispatch ClickGetStarted w0 = Some w1 ->
        let typed := inputName (hooks (browser w0)) in
        agentName (hooks (browser w1)) = trim typed
        /\ localStorage (browser w1) !! KEY_AGENT_NAME = Some (trim typed)
        /\ onboarded (hooks (browser w1)) = true).
Proof.
  intros Hs Hr Ho name. subst name.
  destruct (name_kept_reachable store w Hs Hr) as [H1 H2].
  destruct (H1 Ho) as [Hk Ha]. destruct (H2 Hk) as (name & Hn & Hne & Ht).
  assert (name = agentName (hooks (browser w))) as -> by congruence.
  split; [exact Ha|]. split; [exact Hne|]. split; [exact Ht|].
  split; [rewrite <- Ht; apply trim_no_leading|].
  split; [rewrite <- Ht; apply trim_no_trailing|].
  intros w0 w1 Hd typed. subst typed.
  apply dispatch_fires in Hd.
  inversion Hd as [|w0' Hoff Htyped| | | | | |]; subst. unfold exec.
  rewrite (handleStart_named _ Htyped). cbn [snd with_browser browser hooks
    localStorage agentName onboarded].
  split; [reflexivity|]. split; [apply stored_name|reflexivity].
Qed.

Lemma settle_failure_in_session store w i o w' :
  reachable_from (visit store) w ->
  throws o = true ->
  dispatch (Settle i o) w = Some w' ->
  lifecycles (hooks (browser w')) = [Failed FETCH_ERROR]
  /\ results (hooks (browser w')) = JNull
  /\ in_flight w' = [].
Proof.
  intros Hr Ht Hd. apply single_flight_reachable in Hr.
  apply dispatch_fires in Hd. inversion Hd as [| | | |i' o' r w0 Hi| | |]; subst.
  destruct Hr as [(Hq & _)|(r' & Hq & Hl & Hres & He)];
    rewrite Hq in Hi; [discriminate|].
  destruct i as [|i]; [|discriminate].
  unfold exec. rewrite (settle_throws _ _ Ht). simpl. rewrite Hres, Hq. auto.
Qed.

(** ** Worked inputs *)

Example scenario_A_parses :
  JSON_parse scenario_A_text = Some (DDIResponse.to_json scenario_A).
Proof. vm_compute. reflexivity. Qed.

Example scenario_B_parses :
  JSON_parse scenario_B_text = Some (DDIResponse.to_json scenario_B).
Proof. vm_compute. reflexivity. Qed.

Example not_json_throws : JSON_parse (lit "Sorry, I cannot help.") = None.
Proof. vm_compute. reflexivity. Qed.

Example empty_object_parses : JSON_parse (lit "{}") = Some (JObject []).
Proof. vm_compute. reflexivity. Qed.

(** Scenario A from the first keystroke: one card with the Major badge
    under a count of 1 Found. *)
Example scenario_A_session :
  exists w p c,
    run (sample_events ++ [Settle 0 (Responds (Some scenario_A_text))]) (visit ∅)
    = Some w
    /\ lifecycles (hooks (browser w)) = [Success (DDIResponse.to_json scenario_A)]
    /\ screen w = Some (MainScreen (lit "Pharmy") (lit "Warfarin, Aspirin")
                                   false false None (Boxed p))
    /\ cards p = [c]
    /\ severity_label c = Some (JString (lit "Major"))
    /\ AlertIcon (lit "Major") = OwnString (lit "text-orange-500")
    /\ badge_text p = Some (lit "1 Found").
Proof.
  eexists _, _, _. split; [vm_compute; reflexivity|].
  split; [vm_compute; reflexivity|]. split; [vm_compute; reflexivity|].
  repeat split; vm_compute; reflexivity.
Qed.

(** Scenario B: no card, the empty notice, 0 Found. *)
Example scenario_B_session :
  exists w p,
    run [ ChangeName (lit "Pharmy"); ClickGetStarted;
          ChangeDrugs (lit "Acetaminophen"); ClickAnalyze;
          Settle 0 (Responds (Some scenario_B_text)) ] (visit ∅)
    = Some w
    /\ screen w = Some (MainScreen (lit "Pharmy") (lit "Acetaminophen")
                                   false false None (Boxed p))
    /\ cards p = [] /\ empty_notice p = true
    /\ badge_text p = Some (lit "0 Found").
Proof.
  eexists _, _. split; [vm_compute; reflexivity|].
  split; [vm_compute; reflexivity|].
  repeat split; vm_compute; reflexivity.
Qed.

(** Scenario C: the call rejects; the banner shows, the input stays. *)
Example scenario_C_session :
  exists w,
    run (sample_events ++ [Settle 0 (Rejects (lit "network error"))]) (visit ∅)
    = Some w
    /\ lifecycles (hooks (browser w)) = [Failed FETCH_ERROR]
    /\ screen w = Some (MainScreen (lit "Pharmy") (lit "Warfarin, Aspirin")
                                   false false (Some FETCH_ERROR)
                                   (Bare (Some JNull))).
Proof.
  eexists. split; [vm_compute; reflexivity|].
  split; vm_compute; reflexivity.
Qed.

Lemma sample_session_reachable : reachable_from (visit ∅) sample_session.
Proof. exists sample_events. vm_compute. reflexivity. Defined.

Lemma checkInteractions_failure_witness :
  truthy_string (trim (drugs (hooks sample_browser))) = true
  /\ throws (network_down (request (drugs (hooks sample_browser))
                                   (agentName (hooks sample_browser)))) = true
  /\ lifecycles (hooks (exec (checkInteractions network_down) sample_browser))
     = [Failed FETCH_ERROR]
  /\ error (hooks (exec (checkInteractions network_down) sample_browser))
     = Some FETCH_ERROR
  /\ results (hooks (exec (checkInteractions network_down) sample_browser)) = JNull
  /\ loading (hooks (exec (checkInteractions network_down) sample_browser)) = false.
Proof.
  split; [reflexivity|]. split; [reflexivity|].
  apply (checkInteractions_failure network_down sample_browser); reflexivity.
Defined.

Lemma checkInteractions_response_witness :
  truthy_string (trim (drugs (hooks sample_browser))) = true
  /\ no_text (request (drugs (hooks sample_browser))
                      (agentName (hooks sample_browser))) = Responds None
  /\ match JSON_parse (text_or_empty_object None) with
     | None =>
         lifecycles (hooks (exec (checkInteractions no_text) sample_browser))
         = [Failed FETCH_ERROR]
         /\ results (hooks (exec (checkInteractions no_text) sample_browser)) = JNull
     | Some v =>
         results (hooks (exec (checkInteractions no_text) sample_browser)) = v
         /\ error (hooks (exec (checkInteractions no_text) sample_browser)) = None
         /\ loading (hooks (exec (checkInteractions no_text) sample_browser)) = false
     end.
Proof.
  split; [reflexivity|]. split; [reflexivity|].
  apply (checkInteractions_response no_text sample_browser None); reflexivity.
Defined.

(** A response without text is malformed, yet the invocation ends in
    Success holding the empty object, with no message; so does a response
    that is JSON but lacks the interactions array. *)
Lemma absent_text_ends_in_Success :
  malformed None = true
  /\ lifecycles (hooks (exec (checkInteractions no_text) sample_browser))
     = [Success (JObject [])]
  /\ error (hooks (exec (checkInteractions no_text) sample_browser)) = None
  /\ malformed (Some (lit "{" ++ quoted "summary" ++ lit ":" ++ quoted "ok" ++ lit "}"))
     = true
  /\ lifecycles
       (hooks (exec (checkInteractions
                       (fun _ => Responds
                          (Some (lit "{" ++ quoted "summary" ++ lit ":"
                                 ++ quoted "ok" ++ lit "}"))))
                    sample_browser))
     = [Success (JObject [(lit "summary", JString (lit "ok"))])]
  /\ ~ malformed_always_fails.
Proof.
  repeat split; try (vm_compute; reflexivity).
  intros H.
  destruct (H no_text sample_browser None eq_refl eq_refl eq_refl) as [m Hm].
  vm_compute in Hm. discriminate.
Qed.

Lemma checkInteractions_blank_input_witness :
  trim (drugs (hooks blank_browser)) = []
  /\ checkInteractions_begin blank_browser = (Normal None, blank_browser)
  /\ checkInteractions network_down blank_browser = (Normal tt, blank_browser)
  /\ analyze_disabled_of (hooks blank_browser) = true
  /\ forall calls,
       dispatch ClickAnalyze {| browser := blank_browser; in_flight := calls |}
       = None.
Proof.
  split; [reflexivity|].
  apply (checkInteractions_blank_input network_down blank_browser). reflexivity.
Defined.

Lemma summary_first_drawable :
  Forall drawable_card [minor_record; major_record].
Proof.
  repeat constructor.
  - eexists _, _. split; [reflexivity|]. vm_compute. reflexivity.
  - eexists _, _. split; [reflexivity|]. vm_compute. reflexivity.
Defined.

Lemma App_success_view_witness :
  onboarded summary_first_state = true
  /\ results summary_first_state = JObject summary_first_members
  /\ obj_get (field_name f_interactions) summary_first_members
     = Some (JArray [minor_record; major_record])
  /\ Forall drawable_card [minor_record; major_record]
  /\ exists p,
       App summary_first_state
       = Normal (MainScreen (lit "Pharmy")
                            (lit "Ibuprofen, Lisinopril, Warfarin, Aspirin")
                            false false None (Boxed p))
       /\ Forall2 draws_as [minor_record; major_record] (cards p)
       /\ length (cards p) = 2%nat
       /\ badge_text p = Some (lit "2 Found")
       /\ empty_notice p = false.
Proof.
  split; [reflexivity|]. split; [reflexivity|]. split; [reflexivity|].
  split; [exact summary_first_drawable|].
  destruct (App_success_view summary_first_state summary_first_members
              [minor_record; major_record] eq_refl eq_refl eq_refl
              summary_first_drawable)
    as (p & Hv & Hord & Hlen & _ & Hb & He & _).
  exists p. split; [exact Hv|]. split; [exact Hord|]. split; [exact Hlen|].
  split; [exact Hb|exact He].
Defined.

Lemma request_lifecycle_invariant_witness :
  reachable_from (visit ∅) sample_session
  /\ (exists l, lifecycles (hooks (browser sample_session)) = [l])
  /\ lifecycles (hooks (browser sample_session)) = [Loading].
Proof.
  split; [exact sample_session_reachable|].
  split; [|vm_compute; reflexivity].
  exact (proj1 (request_lifecycle_invariant ∅ sample_session
                  sample_session_reachable)).
Defined.

Lemma checkInteractions_idempotent_witness :
  truthy_string (trim (drugs (hooks sample_browser))) = true
  /\ JSON_parse (text_or_empty_object (Some scenario_A_text))
     = Some (DDIResponse.to_json scenario_A)
  /\ exec (checkInteractions answers_A)
          (exec (checkInteractions answers_A) sample_browser)
     = exec (checkInteractions answers_A) sample_browser
  /\ results (hooks (exec (checkInteractions answers_A) sample_browser))
     = DDIResponse.to_json scenario_A.
Proof.
  assert (Hp : JSON_parse (text_or_empty_object (Some scenario_A_text))
               = Some (DDIResponse.to_json scenario_A))
    by (vm_compute; reflexivity).
  split; [reflexivity|]. split; [exact Hp|].
  destruct (checkInteractions_idempotent answers_A answers_A sample_browser
              (Some scenario_A_text) (DDIResponse.to_json scenario_A)
              eq_refl eq_refl eq_refl Hp)
    as (Hsame & Hres & _).
  split; [exact Hsame|exact Hres].
Defined.

Lemma agent_name_trimmed_witness :
  (∅ : gmap js_string js_string) !! KEY_ONBOARDED <> Some (lit "true")
  /\ reachable_from (visit ∅) sample_session
  /\ onboarded (hooks (browser sample_session)) = true
  /\ agentName (hooks (browser sample_session)) = lit "Pharmy"
  /\ localStorage (browser sample_session) !! KEY_AGENT_NAME
     = Some (agentName (hooks (browser sample_session)))
  /\ trim (agentName (hooks (browser sample_session)))
     = agentName (hooks (browser sample_session)).
Proof.
  assert (H0 : (∅ : gmap js_string js_string) !! KEY_ONBOARDED
               <> Some (lit "true"))
    by (rewrite lookup_empty; discriminate).
  split; [exact H0|]. split; [exact sample_session_reachable|].
  split; [reflexivity|]. split; [reflexivity|].
  destruct (agent_name_trimmed ∅ sample_session H0 sample_session_reachable
              eq_refl) as (Hs & _ & Ht & _).
  split; [exact Hs|exact Ht].
Defined.

(** * Further properties *)

(** ** What the handlers leave alone *)

(** X1. An invocation of checkInteractions, however the service answers,
    never changes the drug text, the name field, the agent name, the
    onboarded flag or the persisted store. *)
Theorem checkInteractions_keeps_input service b :
  let b' := exec (checkInteractions service) b in
  localStorage b' = localStorage b
  /\ drugs (hooks b') = drugs (hooks b)
  /\ inputName (hooks b') = inputName (hooks b)
  /\ agentName (hooks b') = agentName (hooks b)
  /\ onboarded (hooks b') = onboarded (hooks b).
Proof.
  intros b'. subst b'. unfold exec.
  destruct (truthy_string (trim (drugs (hooks b)))) eqn:Hd.
  - rewrite (checkInteractions_nonblank _ _ Hd).
    destruct (throws_or_parsed
                (service (request (drugs (hooks b)) (agentName (hooks b)))))
      as [Ht|(text & v & -> & Hp)].
    + rewrite (settle_throws _ _ Ht). simpl. auto.
    + rewrite (settle_parsed _ _ _ Hp). simpl. auto.
  - rewrite (checkInteractions_blank _ _ Hd). auto.
Qed.

(** X2. An invocation writes to the console exactly once when the call or
    the parse throws, handing over the error it caught, and writes nothing
    when the answer parses or when the guard returns early. *)
Theorem checkInteractions_console service b :
  let o := service (request (drugs (hooks b)) (agentName (hooks b))) in
  console (exec (checkInteractions service) b)
  = if truthy_string (trim (drugs (hooks b))) && throws o
    then thrown o :: console b
    else console b.
Proof.
  intros o. subst o. unfold exec.
  destruct (truthy_string (trim (drugs (hooks b)))) eqn:Hd; cbn [andb].
  - rewrite (checkInteractions_nonblank _ _ Hd).
    destruct (throws (service (request (drugs (hooks b)) (agentName (hooks b)))))
      eqn:Ht.
    + rewrite (settle_throws _ _ Ht). reflexivity.
    + destruct (throws_or_parsed
                  (service (request (drugs (hooks b)) (agentName (hooks b)))))
        as [Ht'|(text & v & Ho & Hp)]; [congruence|].
      rewrite Ho, (settle_parsed _ _ _ Hp). reflexivity.
  - rewrite (checkInteractions_blank _ _ Hd). reflexivity.
Qed.

(** X3. handleStart touches nothing but the two onboarding keys and the two
    onboarding cells: every other key of the store keeps its value, and the
    name field, the drug text, the loading flag, the result, the message
    and the console are as before. *)
Theorem handleStart_frame b :
  let b' := exec handleStart b in
  (forall k, k <> KEY_ONBOARDED -> k <> KEY_AGENT_NAME ->
             localStorage b' !! k = localStorage b !! k)
  /\ inputName (hooks b') = inputName (hooks b)
  /\ drugs (hooks b') = drugs (hooks b)
  /\ loading (hooks b') = loading (hooks b)
  /\ results (hooks b') = results (hooks b)
  /\ error (hooks b') = error (hooks b)
  /\ console b' = console b.
Proof.
  intros b'. subst b'. unfold exec.
  destruct (truthy_string (trim (inputName (hooks b)))) eqn:H.
  - rewrite (handleStart_named b H). cbn [snd localStorage hooks console
      inputName drugs loading results error].
    split; [|auto 10].
    intros k Ho Ha. now rewrite !lookup_insert_ne by congruence.
  - rewrite (handleStart_blank b H). auto 10.
Qed.

(** X4. Running handleStart a second time changes nothing: the store and
    the cells are those the first run left. *)
Theorem handleStart_idempotent b :
  exec handleStart (exec handleStart b) = exec handleStart b.
Proof.
  unfold exec.
  destruct (truthy_string (trim (inputName (hooks b)))) eqn:H.
  - rewrite (handleStart_named b H). cbn [snd].
    rewrite handleStart_named by exact H.
    cbn [snd localStorage hooks console inputName drugs loading results error].
    f_equal. apply map_eq. intros k.
    destruct (decide (k = KEY_ONBOARDED)) as [->|Ho].
    + now rewrite !lookup_insert_eq.
    + rewrite !(lookup_insert_ne _ KEY_ONBOARDED) by congruence.
      destruct (decide (k = KEY_AGENT_NAME)) as [->|Ha].
      * now rewrite !lookup_insert_eq.
      * now rewrite !lookup_insert_ne by congruence.
  - rewrite (handleStart_blank b H). cbn [snd]. now rewrite (handleStart_blank b H).
Qed.

(** X5. The request determines what it was built from: two requests are
    equal only when the drug texts are equal and the agent names are equal.
    The drug text travels as typed, untrimmed. *)
Theorem request_injective d a d' a' :
  request d a = request d' a' -> d = d' /\ a = a'.
Proof.
  intros H.
  pose proof (f_equal contents H) as Hc.
  pose proof (f_equal systemInstruction H) as Hs.
  unfold request in Hc, Hs. cbn [contents systemInstruction] in Hc, Hs.
  split.
  - apply app_inv_head in Hc. now apply app_inv_tail in Hc.
  - apply app_inv_head in Hs. now apply app_inv_tail in Hs.
Qed.

Lemma request_injective_witness :
  request (lit " Warfarin ") (lit "Pharmy") = request (lit " Warfarin ") (lit "Pharmy")
  /\ lit " Warfarin " = lit " Warfarin " /\ lit "Pharmy" = lit "Pharmy".
Proof.
  split; [reflexivity|].
  apply (request_injective (lit " Warfarin ") (lit "Pharmy")
                           (lit " Warfarin ") (lit "Pharmy")).
  reflexivity.
Defined.

(** ** The two buttons *)

Lemma trimStart_blank s : blank s = true -> trimStart s = [].
Proof.
  unfold blank. induction s as [|c rest IH]; simpl; [reflexivity|].
  intros H. apply andb_true_iff in H as [Hc Hr]. rewrite Hc. now apply IH.
Qed.

Lemma trim_blank_iff s : trim s = [] <-> blank s = true.
Proof.
  split.
  - intros H. destruct (trim_decompose s) as (pre & post & E & A1 & A2).
    rewrite H in E. simpl in E. rewrite E. unfold blank.
    rewrite forallb_app. now rewrite A1, A2.
  - intros H. unfold trim. now rewrite (trimStart_blank s H).
Qed.

Lemma not_truthy_trim_iff s :
  negb (truthy_string (trim s)) = true <-> blank s = true.
Proof.
  rewrite <- trim_blank_iff. destruct (trim s); simpl; split; congruence.
Qed.

(** X6. The Get Started button is disabled exactly when the name field
    holds nothing but white space, and the Analyze button exactly when a
    query is loading or the drug text holds nothing but white space. *)
Theorem buttons_disabled_iff_blank s :
  (start_disabled_of s = true <-> blank (inputName s) = true)
  /\ (analyze_disabled_of s = true
      <-> loading s = true \/ blank (drugs s) = true).
Proof.
  split.
  - apply not_truthy_trim_iff.
  - unfold analyze_disabled_of. rewrite orb_true_iff.
    now rewrite not_truthy_trim_iff.
Qed.

Lemma screen_main_parts w h d dis sp eb blk :
  screen w = Some (MainScreen h d dis sp eb blk) ->
  onboarded (hooks (browser w)) = true
  /\ dis = analyze_disabled_of (hooks (browser w))
  /\ sp = loading (hooks (browser w))
  /\ eb = render_error (error (hooks (browser w)))
  /\ render_results (results (hooks (browser w))) = Normal blk.
Proof.
  unfold screen, App. destruct (onboarded (hooks (browser w))); simpl.
  - destruct (render_results _) as [blk'|e]; simpl; [|discriminate].
    intros [= <- <- <- <- <- <-]. auto.
  - discriminate.
Qed.

Lemma ClickAnalyze_enabled w :
  onboarded (hooks (browser w)) = true ->
  loading (hooks (browser w)) = false ->
  results (hooks (browser w)) = JNull ->
  truthy_string (trim (drugs (hooks (browser w)))) = true ->
  exists w', dispatch ClickAnalyze w = Some w'.
Proof.
  intros Ho Hl Hr Ht. unfold dispatch, screen, App.
  rewrite Ho, Hr. cbn [negb render_results truthy and_then].
  unfold analyze_disabled_of. rewrite Hl, Ht. cbn [negb orb].
  rewrite (begin_nonblank _ Ht). eauto.
Qed.

(** X7. A click on Analyze is delivered only while the button is enabled.
    When the client is constructed, the click puts the request built from
    the current drug text and agent name in flight, leaves the page in
    Loading alone and disables the button, so that a second click goes
    nowhere. When the constructor of the client throws, the click itself
    ends in Failed with the generic message and a null result: the error
    is logged, nothing is added to the calls in flight, and the button is
    enabled again, so that the next click is delivered. *)
Theorem click_on_Analyze e w w' :
  dispatch e w = Some w' ->
  match e with
  | ClickAnalyze =>
      in_flight w'
      = in_flight w ++ [request (drugs (hooks (browser w)))
                                (agentName (hooks (browser w)))]
      /\ lifecycles (hooks (browser w')) = [Loading]
      /\ analyze_disabled_of (hooks (browser w')) = true
      /\ dispatch ClickAnalyze w' = None
      /\ (forall reason, dispatch (ClickAnalyzeNoClient reason) w' = None)
  | ClickAnalyzeNoClient reason =>
      in_flight w' = in_flight w
      /\ lifecycles (hooks (browser w')) = [Failed FETCH_ERROR]
      /\ results (hooks (browser w')) = JNull
      /\ console (browser w') = Rejection reason :: console (browser w)
      /\ drugs (hooks (browser w')) = drugs (hooks (browser w))
      /\ analyze_disabled_of (hooks (browser w')) = false
      /\ exists w'', dispatch ClickAnalyze w' = Some w''
  | _ => True
  end.
Proof.
  intros H. apply dispatch_fires in H.
  destruct H as [v w Ho|w Ho Ht|v w Ho|w Ho Hl Ht|i o r w Hi|w Ho|w
                |reason w Ho Hl Ht]; try exact I.
  - split; [reflexivity|]. split; [reflexivity|]. split; [reflexivity|].
    split; [|intros reason];
      unfold dispatch, screen, App;
      cbn [browser hooks with_hooks loading_state onboarded results];
      rewrite Ho; reflexivity.
  - unfold exec. rewrite (no_client_nonblank _ _ Ht).
    cbn [snd with_browser browser in_flight hooks console results drugs].
    split; [reflexivity|]. split; [reflexivity|]. split; [reflexivity|].
    split; [reflexivity|]. split; [reflexivity|].
    split.
    + unfold analyze_disabled_of. cbn [loading drugs]. now rewrite Ht.
    + apply ClickAnalyze_enabled; [exact Ho|reflexivity|reflexivity|exact Ht].
Qed.

Lemma typed_session_clicks :
  dispatch ClickAnalyze typed_session = Some sample_session.
Proof. vm_compute. reflexivity. Defined.

Lemma typed_session_fails_to_click :
  dispatch (ClickAnalyzeNoClient (lit "An API Key must be set")) typed_session
  = Some no_client_session.
Proof. vm_compute. reflexivity. Defined.

Lemma click_on_Analyze_witness :
  dispatch ClickAnalyze typed_session = Some sample_session
  /\ lifecycles (hooks (browser sample_session)) = [Loading]
  /\ dispatch ClickAnalyze sample_session = None
  /\ dispatch (ClickAnalyzeNoClient (lit "An API Key must be set")) typed_session
     = Some no_client_session
  /\ in_flight no_client_session = []
  /\ lifecycles (hooks (browser no_client_session)) = [Failed FETCH_ERROR]
  /\ analyze_disabled_of (hooks (browser no_client_session)) = false.
Proof.
  split; [exact typed_session_clicks|].
  destruct (click_on_Analyze ClickAnalyze typed_session sample_session
              typed_session_clicks) as (_ & Hl & _ & Hn & _).
  split; [exact Hl|]. split; [exact Hn|].
  split; [exact typed_session_fails_to_click|].
  destruct (click_on_Analyze (ClickAnalyzeNoClient (lit "An API Key must be set"))
              typed_session no_client_session typed_session_fails_to_click)
    as (Hq & Hf & _ & _ & _ & Hd & _).
  split; [exact Hq|]. split; [exact Hf|exact Hd].
Defined.

(** ** Invariants of a session, continued *)

(** X8. At every point of a session at most one call is in flight, and the
    loading flag is set exactly while one is. *)
Theorem at_most_one_call_in_flight store w :
  reachable_from (visit store) w ->
  (length (in_flight w) <= 1)%nat
  /\ (loading (hooks (browser w)) = true <-> in_flight w <> []).
Proof.
  intros H. apply single_flight_reachable in H.
  destruct H as [(Hq & Hl & _)|(r & Hq & Hl & _)]; rewrite Hq, Hl; simpl.
  - split; [lia|]. split; [discriminate|congruence].
  - split; [lia|]. split; [discriminate|reflexivity].
Qed.

Lemma at_most_one_call_in_flight_witness :
  reachable_from (visit ∅) sample_session
  /\ (length (in_flight sample_session) <= 1)%nat
  /\ (loading (hooks (browser sample_session)) = true
      <-> in_flight sample_session <> []).
Proof.
  split; [exact sample_session_reachable|].
  exact (at_most_one_call_in_flight ∅ sample_session sample_session_reachable).
Defined.

Lemma generic_error_only_fires e w w' :
  generic_error_only w -> fires e w w' -> generic_error_only w'.
Proof.
  unfold generic_error_only.
  intros Hw Hf. destruct Hf as [v w Ho|w Ho Ht|v w Ho|w Ho Hl Ht|i o r w Hi|w Ho|w|reason w Ho Hl Ht].
  - exact Hw.
  - unfold exec. rewrite (handleStart_named _ Ht). exact Hw.
  - exact Hw.
  - now left.
  - unfold exec. destruct (throws_or_parsed o) as [Ht|(text & v & -> & Hp)].
    + rewrite (settle_throws _ _ Ht). now right.
    + rewrite (settle_parsed _ _ _ Hp). exact Hw.
  - now left.
  - now left.
  - unfold exec. rewrite (no_client_nonblank _ _ Ht). now right.
Qed.

(** X9. The error cell never holds anything but null or the one generic
    message, whatever the service answered or threw. *)
Theorem only_generic_message store w :
  reachable_from (visit store) w ->
  error (hooks (browser w)) = None
  \/ error (hooks (browser w)) = Some FETCH_ERROR.
Proof.
  intros [es H].
  apply (run_invariant generic_error_only generic_error_only_fires es
           (visit store) w); [now left|exact H].
Qed.

Lemma failed_session_reachable : reachable_from (visit ∅) failed_session.
Proof.
  exists (sample_events ++ [Settle 0 (Rejects (lit "network error"))]).
  vm_compute. reflexivity.
Defined.

Lemma only_generic_message_witness :
  reachable_from (visit ∅) failed_session
  /\ (error (hooks (browser failed_session)) = None
      \/ error (hooks (browser failed_session)) = Some FETCH_ERROR)
  /\ error (hooks (browser failed_session)) = Some FETCH_ERROR.
Proof.
  split; [exact failed_session_reachable|].
  split; [|reflexivity].
  exact (only_generic_message ∅ failed_session failed_session_reachable).
Defined.

Lemma render_results_null : render_results JNull = Normal (Bare (Some JNull)).
Proof. reflexivity. Qed.

(** X10. On the main screen the spinner, the error banner and the results
    block exclude one another: while the spinner turns there is neither
    banner nor block, and a banner is never shown beside a results block. *)
Theorem banner_spinner_block_exclusive store w h d dis sp eb blk :
  reachable_from (visit store) w ->
  screen w = Some (MainScreen h d dis sp eb blk) ->
  (sp = true -> eb = None /\ blk = Bare (Some JNull))
  /\ (eb <> None -> sp = false /\ blk = Bare (Some JNull))
  /\ (forall p, blk = Boxed p -> sp = false /\ eb = None).
Proof.
  intros Hr Hs. apply single_flight_reachable in Hr.
  apply screen_main_parts in Hs as (_ & _ & -> & -> & Hblk).
  destruct Hr as [(_ & Hl & [Hres|He])|(r & _ & Hl & Hres & He)].
  - rewrite Hl. rewrite Hres, render_results_null in Hblk.
    injection Hblk as <-. repeat split; try congruence.
  - rewrite Hl, He. cbn [render_error]. repeat split; congruence.
  - rewrite Hl, He. rewrite Hres, render_results_null in Hblk.
    injection Hblk as <-. cbn [render_error]. repeat split; congruence.
Qed.

Lemma banner_spinner_block_exclusive_witness :
  reachable_from (visit ∅) failed_session
  /\ screen failed_session
     = Some (MainScreen (lit "Pharmy") (lit "Warfarin, Aspirin") false false
                        (Some FETCH_ERROR) (Bare (Some JNull)))
  /\ (Some FETCH_ERROR <> None ->
      false = false /\ Bare (Some JNull) = @Bare ResultsPanel (Some JNull)).
Proof.
  assert (Hs : screen failed_session
               = Some (MainScreen (lit "Pharmy") (lit "Warfarin, Aspirin")
                                  false false (Some FETCH_ERROR)
                                  (Bare (Some JNull))))
    by (vm_compute; reflexivity).
  split; [exact failed_session_reachable|]. split; [exact Hs|].
  exact (proj1 (proj2 (banner_spinner_block_exclusive ∅ failed_session _ _ _ _ _ _
                         failed_session_reachable Hs))).
Defined.

(** X11. Only two events write to the persisted store: the click on Get
    Started, which sets the two onboarding keys on top of what is there,
    and the click on Settings, which empties it. Typing, submitting, the
    settling of a call and a reload leave the store as it is. *)
Theorem storage_writers e w w' :
  dispatch e w = Some w' ->
  localStorage (browser w')
  = match e with
    | ClickGetStarted =>
        <[KEY_ONBOARDED := lit "true"]>
          (<[KEY_AGENT_NAME := trim (inputName (hooks (browser w)))]>
             (localStorage (browser w)))
    | ClickSettings => ∅
    | _ => localStorage (browser w)
    end.
Proof.
  intros H. apply dispatch_fires in H.
  destruct H as [v w Ho|w Ho Ht|v w Ho|w Ho Hl Ht|i o r w Hi|w Ho|w|reason w Ho Hl Ht];
    try reflexivity.
  - unfold exec. now rewrite (handleStart_named _ Ht).
  - unfold exec. destruct (throws_or_parsed o) as [Ht|(text & v & -> & Hp)].
    + now rewrite (settle_throws _ _ Ht).
    + now rewrite (settle_parsed _ _ _ Hp).
  - unfold exec. now rewrite (no_client_nonblank _ _ Ht).
Qed.

Lemma storage_writers_witness :
  dispatch ClickAnalyze typed_session = Some sample_session
  /\ localStorage (browser sample_session) = localStorage (browser typed_session).
Proof.
  split; [exact typed_session_clicks|].
  exact (storage_writers ClickAnalyze typed_session sample_session
           typed_session_clicks).
Defined.

(** X12. Once onboarded, a session stays onboarded under the same agent
    name through every event but the click on Settings, a reload of the
    page included. *)
Theorem onboarding_persists store w e w' :
  store !! KEY_ONBOARDED <> Some (lit "true") ->
  reachable_from (visit store) w ->
  onboarded (hooks (browser w)) = true ->
  dispatch e w = Some w' ->
  e <> ClickSettings ->
  onboarded (hooks (browser w')) = true
  /\ agentName (hooks (browser w')) = agentName (hooks (browser w)).
Proof.
  intros Hs Hr Ho Hd He.
  destruct (name_kept_reachable store w Hs Hr) as [H1 H2].
  destruct (H1 Ho) as [Hk Ha]. destruct (H2 Hk) as (name & Hn & Hne & _).
  apply dispatch_fires in Hd.
  destruct Hd as [v w Hoff|w Hoff Ht|v w Hon|w Hon Hl Ht|i o r w Hi|w Hon|w|reason w Hon Hl Ht];
    try congruence; try (split; [exact Ho|reflexivity]).
  - unfold exec. destruct (throws_or_parsed o) as [Ht|(text & v & -> & Hp)].
    + rewrite (settle_throws _ _ Ht). split; [exact Ho|reflexivity].
    + rewrite (settle_parsed _ _ _ Hp). split; [exact Ho|reflexivity].
  - unfold reload, load, initial_state.
    cbn [browser hooks localStorage onboarded agentName].
    rewrite Hk, Ha. split; [apply true_is_true|].
    apply or_string_truthy. apply truthy_string_nonempty. congruence.
  - unfold exec. rewrite (no_client_nonblank _ _ Ht).
    split; [exact Ho|reflexivity].
Qed.

Lemma onboarding_persists_witness :
  reachable_from (visit ∅) sample_session
  /\ onboarded (hooks (browser sample_session)) = true
  /\ dispatch Reload sample_session
     = Some {| browser := reload (browser sample_session); in_flight := [] |}
  /\ onboarded (hooks (reload (browser sample_session))) = true
  /\ agentName (hooks (reload (browser sample_session))) = lit "Pharmy".
Proof.
  assert (H0 : (∅ : gmap js_string js_string) !! KEY_ONBOARDED
               <> Some (lit "true"))
    by (rewrite lookup_empty; discriminate).
  assert (Hd : dispatch Reload sample_session
               = Some {| browser := reload (browser sample_session);
                         in_flight := [] |})
    by (vm_compute; reflexivity).
  assert (Hne : Reload <> ClickSettings) by discriminate.
  split; [exact sample_session_reachable|]. split; [reflexivity|].
  split; [exact Hd|].
  exact (onboarding_persists ∅ sample_session Reload _ H0
           sample_session_reachable eq_refl Hd Hne).
Defined.

(** ** Page loads *)

(** X13. Every page load draws a screen and starts Idle with both fields
    empty and the button of the screen disabled: the main screen under the
    stored agent name when the stored flag is exactly the string true, the
    onboarding screen in every other case, whatever else the store holds.
    No result, message or typed text survives a reload. *)
Theorem fresh_page_view store :
  let s := initial_state store in
  App s
  = Normal (if onboarded s
            then MainScreen (agentName s) [] true false None (Bare (Some JNull))
            else OnboardingScreen [] true)
  /\ (onboarded s = true <-> store !! KEY_ONBOARDED = Some (lit "true"))
  /\ lifecycles s = [Idle].
Proof.
  intros s. subst s. split; [|split].
  - unfold App. destruct (onboarded (initial_state store)); reflexivity.
  - unfold initial_state. cbn [onboarded].
    destruct (store !! KEY_ONBOARDED) as [v|]; [|split; discriminate].
    unfold strict_eq_string. rewrite bool_decide_eq_true.
    split; congruence.
  - reflexivity.
Qed.

(** ** Which stored values can be drawn *)

Lemma render_card_draws_iff x :
  (exists c, render_card x = Normal c) <-> drawable_card x.
Proof.
  split.
  - intros [c H]. destruct x as [|b|n|str|items|ms]; try discriminate.
    rewrite render_card_object in H.
    destruct (obj_get (field_name f_drugs) ms) as [[|b|n|str|ds|ms']|] eqn:E;
      try discriminate.
    now exists ms, ds.
  - intros (ms & ds & -> & E). rewrite render_card_object, E. eauto.
Qed.

Lemma render_card_throws x e : render_card x = Throw e -> e = TypeError.
Proof.
  destruct x as [|b|n|str|items|ms]; try (intros [= <-]; reflexivity).
  rewrite render_card_object.
  destruct (obj_get (field_name f_drugs) ms) as [[|b|n|str|ds|ms']|];
    try discriminate; now intros [= <-].
Qed.

Lemma map_completion_draws {A B} (f : A -> completion B) xs :
  (exists ys, map_completion f xs = Normal ys)
  <-> Forall (fun x => exists y, f x = Normal y) xs.
Proof.
  induction xs as [|x rest IH]; simpl.
  - split; [constructor|eauto].
  - split.
    + intros [ys H]. destruct (f x) as [y|e] eqn:Ex; [|discriminate].
      destruct (map_completion f rest) as [ys'|e]; [|discriminate].
      constructor; [eauto|]. apply IH. eauto.
    + intros H. inversion H as [|x' rest' [y Hy] Hrest]; subst.
      apply IH in Hrest as [ys Hys]. rewrite Hy, Hys. eauto.
Qed.

Lemma map_completion_throws {A B} (f : A -> completion B) xs e :
  (forall x e', f x = Throw e' -> e' = TypeError) ->
  map_completion f xs = Throw e -> e = TypeError.
Proof.
  intros Hf. induction xs as [|x rest IH]; simpl; [discriminate|].
  destruct (f x) as [y|e'] eqn:Ex.
  - destruct (map_completion f rest) as [ys|e'']; [discriminate|].
    intros [= <-]. now apply IH.
  - intros [= <-]. now apply (Hf x).
Qed.

(** The element tree: [App] returns a results part exactly when the stored
    value is falsy, or is an object whose interactions member is an array
    of objects that each carry an array under drugs; when it throws
    instead, it throws a TypeError. *)
Lemma render_results_returns_iff v :
  ((exists blk, render_results v = Normal blk)
   <-> truthy (Some v) = false
       \/ exists ms xs,
            v = JObject ms
            /\ obj_get (field_name f_interactions) ms = Some (JArray xs)
            /\ Forall drawable_card xs)
  /\ (forall e, render_results v = Throw e -> e = TypeError).
Proof.
  unfold render_results.
  destruct (truthy (Some v)) eqn:Hv; cbn [negb].
  2:{ split; [split; eauto|discriminate]. }
  destruct v as [|b|n|str|items|ms]; cbn [get get_length and_then];
    try (split; [split; [intros [? ?]; discriminate
                        |intros [?|(? & ? & ? & _)]; discriminate]
                |now intros e [= <-]]).
  destruct (obj_get (field_name f_interactions) ms)
    as [[|b|n|str|xs|ms']|] eqn:Ei;
    cbn [get_length array_map and_then];
    try (split; [split; [intros [? ?]; discriminate
                        |intros [?|(? & ? & [= <-] & ? & _)]; congruence]
                |now intros e [= <-]]).
  split.
  - split.
    + intros [blk H]. right. exists ms, xs. split; [reflexivity|].
      split; [exact Ei|].
      destruct (map_completion render_card xs) as [cs|e] eqn:Ec;
        [|discriminate].
      assert (Hall : Forall (fun x => exists c, render_card x = Normal c) xs)
        by (apply map_completion_draws; eauto).
      eapply Forall_impl; [exact Hall|]. intros x. apply render_card_draws_iff.
    + intros [?|(ms0 & xs0 & [= <-] & Ei0 & Hall)]; [discriminate|].
      assert (xs0 = xs) as -> by congruence.
      assert (Hc : exists cs, map_completion render_card xs = Normal cs).
      { apply map_completion_draws. eapply Forall_impl; [exact Hall|].
        intros x. apply render_card_draws_iff. }
      destruct Hc as [cs ->]. cbn [and_then]. eauto.
  - intros e.
    destruct (map_completion render_card xs) as [cs|e'] eqn:Ec;
      cbn [and_then]; [discriminate|].
    intros [= <-]. eapply map_completion_throws; [|exact Ec].
    apply render_card_throws.
Qed.

(** ** Answers without text *)

Lemma empty_object_text : JSON_parse (lit "{}") = Some (JObject []).
Proof. vm_compute. reflexivity. Qed.

(** X15. When the response carries no text, or the empty string, the
    invocation stores the empty object with no message, ending in Success;
    on the main screen the next drawing then throws a TypeError, the empty
    object having no interactions member. *)
Theorem empty_answer_is_stored service b text :
  truthy_string (trim (drugs (hooks b))) = true ->
  service (request (drugs (hooks b)) (agentName (hooks b))) = Responds text ->
  text = None \/ text = Some [] ->
  let b' := exec (checkInteractions service) b in
  results (hooks b') = JObject []
  /\ error (hooks b') = None
  /\ lifecycles (hooks b') = [Success (JObject [])]
  /\ (onboarded (hooks b) = true -> App (hooks b') = Throw TypeError).
Proof.
  intros Hd Hs Ht b'. subst b'. unfold exec.
  assert (Hp : JSON_parse (text_or_empty_object text) = Some (JObject [])).
  { destruct Ht as [-> | ->]; exact empty_object_text. }
  rewrite (checkInteractions_nonblank _ _ Hd), Hs, (settle_parsed _ _ _ Hp).
  cbn [snd hooks with_hooks results error loading_state].
  split; [reflexivity|]. split; [reflexivity|]. split; [reflexivity|].
  intros Ho. unfold App.
  cbn [onboarded results hooks with_hooks loading_state]. rewrite Ho.
  reflexivity.
Qed.

Lemma empty_answer_is_stored_witness :
  truthy_string (trim (drugs (hooks sample_browser))) = true
  /\ no_text (request (drugs (hooks sample_browser))
                      (agentName (hooks sample_browser))) = Responds None
  /\ results (hooks (exec (checkInteractions no_text) sample_browser)) = JObject []
  /\ App (hooks (exec (checkInteractions no_text) sample_browser)) = Throw TypeError.
Proof.
  split; [reflexivity|]. split; [reflexivity|].
  destruct (empty_answer_is_stored no_text sample_browser None
              eq_refl eq_refl (or_introl eq_refl)) as (Hr & _ & _ & Ha).
  split; [exact Hr|exact (Ha eq_refl)].
Defined.

(** ** Typing while a call is in flight *)

(** X16. The settling of a call and an edit of the drug text commute: the
    answer never overwrites what was typed in the meantime, and what was
    typed never alters the stored answer or message. *)
Theorem settle_commutes_with_typing o v b :
  exec (setDrugs v) (exec (checkInteractions_settle o) b)
  = exec (checkInteractions_settle o) (exec (setDrugs v) b).
Proof.
  unfold exec. destruct (throws_or_parsed o) as [Ht|(text & u & -> & Hp)].
  - rewrite !(settle_throws _ _ Ht). reflexivity.
  - rewrite !(settle_parsed _ _ _ Hp). reflexivity.
Qed.

(** X19. Whenever a call settles in a session, whatever was typed since the
    click, nothing is left in flight and loading is over; the page is in
    Failed with the generic message and a null result when the call or the
    parse threw, and holds the parsed value with no message otherwise. The
    drug text is what it was just before. *)
Theorem settle_in_session store w i o w' :
  reachable_from (visit store) w ->
  dispatch (Settle i o) w = Some w' ->
  in_flight w' = []
  /\ loading (hooks (browser w')) = false
  /\ drugs (hooks (browser w')) = drugs (hooks (browser w))
  /\ (if throws o
      then lifecycles (hooks (browser w')) = [Failed FETCH_ERROR]
           /\ results (hooks (browser w')) = JNull
      else error (hooks (browser w')) = None
           /\ exists text,
                o = Responds text
                /\ JSON_parse (text_or_empty_object text)
                   = Some (results (hooks (browser w')))).
Proof.
  intros Hr Hd. apply single_flight_reachable in Hr.
  apply dispatch_fires in Hd. inversion Hd as [| | | |i' o' r w0 Hi| | |]; subst.
  destruct Hr as [(Hq & _)|(r' & Hq & Hl & Hres & He)];
    rewrite Hq in Hi; [discriminate|].
  destruct i as [|i]; [|discriminate].
  cbn [in_flight browser]. rewrite Hq. unfold exec.
  destruct (throws o) eqn:Ht.
  - rewrite (settle_throws _ _ Ht). cbn [snd hooks loading drugs results].
    unfold lifecycles. cbn [loading results error]. rewrite Hres. auto.
  - destruct (throws_or_parsed o) as [Ht'|(text & v & -> & Hp)]; [congruence|].
    rewrite (settle_parsed _ _ _ Hp).
    cbn [snd hooks with_hooks loading drugs results error]. rewrite He.
    repeat split. exists text. split; [reflexivity|exact Hp].
Qed.

Lemma sample_session_settles :
  dispatch (Settle 0 (Rejects (lit "network error"))) sample_session
  = Some failed_session.
Proof. vm_compute. reflexivity. Defined.

Lemma settle_in_session_witness :
  reachable_from (visit ∅) sample_session
  /\ dispatch (Settle 0 (Rejects (lit "network error"))) sample_session
     = Some failed_session
  /\ in_flight failed_session = []
  /\ loading (hooks (browser failed_session)) = false
  /\ drugs (hooks (browser failed_session)) = drugs (hooks (browser sample_session)).
Proof.
  split; [exact sample_session_reachable|].
  split; [exact sample_session_settles|].
  destruct (settle_in_session ∅ sample_session 0 (Rejects (lit "network error"))
              failed_session sample_session_reachable sample_session_settles)
    as (Hq & Hl & Hd & _).
  split; [exact Hq|]. split; [exact Hl|exact Hd].
Defined.

(** ** More of the drawing *)


(** X18. In a session that began before onboarding, the letter in the round
    badge of an onboarded page is the upper-cased first unit of the agent
    name, and that unit exists and is not white space: the badge never
    stands for a blank. *)
Theorem header_initial_of_name toUpperCase store w :
  store !! KEY_ONBOARDED <> Some (lit "true") ->
  reachable_from (visit store) w ->
  onboarded (hooks (browser w)) = true ->
  exists c,
    first_unit (agentName (hooks (browser w))) = Some c
    /\ is_trimmable c = false
    /\ header_initial toUpperCase (hooks (browser w)) = toUpperCase [c].
Proof.
  intros Hs Hr Ho.
  destruct (name_kept_reachable store w Hs Hr) as [H1 H2].
  destruct (H1 Ho) as [Hk Ha]. destruct (H2 Hk) as (name & Hn & Hne & Ht).
  assert (name = agentName (hooks (browser w))) as -> by congruence.
  unfold header_initial.
  destruct (agentName (hooks (browser w))) as [|c rest] eqn:E; [congruence|].
  exists c. split; [reflexivity|]. split; [|reflexivity].
  apply (trim_no_leading (c :: rest)). rewrite Ht. reflexivity.
Qed.

Lemma header_initial_of_name_witness :
  (∅ : gmap js_string js_string) !! KEY_ONBOARDED <> Some (lit "true")
  /\ reachable_from (visit ∅) sample_session
  /\ onboarded (hooks (browser sample_session)) = true
  /\ header_initial ascii_toUpperCase (hooks (browser sample_session)) = lit "P"
  /\ exists c,
       first_unit (agentName (hooks (browser sample_session))) = Some c
       /\ is_trimmable c = false
       /\ header_initial ascii_toUpperCase (hooks (browser sample_session))
          = ascii_toUpperCase [c].
Proof.
  assert (H0 : (∅ : gmap js_string js_string) !! KEY_ONBOARDED
               <> Some (lit "true"))
    by (rewrite lookup_empty; discriminate).
  split; [exact H0|]. split; [exact sample_session_reachable|].
  split; [reflexivity|]. split; [reflexivity|].
  exact (header_initial_of_name ascii_toUpperCase ∅ sample_session H0
           sample_session_reachable eq_refl).
Defined.

(** ** What is sent *)

Lemma in_flight_well_formed_fires e w w' :
  in_flight_well_formed w -> fires e w w' -> in_flight_well_formed w'.
Proof.
  unfold in_flight_well_formed.
  intros Hw Hf. destruct Hf as [v w Ho|w Ho Ht|v w Ho|w Ho Hl Ht|i o r w Hi|w Ho|w|reason w Ho Hl Ht];
    cbn [in_flight browser with_browser].
  - intros r Hr. destruct (Hw r Hr) as [Hon _]. congruence.
  - intros r Hr. destruct (Hw r Hr) as [Hon _]. congruence.
  - exact Hw.
  - intros r Hr. cbn [hooks with_hooks loading_state onboarded agentName].
    apply elem_of_app in Hr as [Hr|Hr]; [now apply Hw|].
    apply list_elem_of_singleton in Hr as ->. split; [exact Ho|].
    exists (drugs (hooks (browser w))). split; [|reflexivity].
    destruct (blank (drugs (hooks (browser w)))) eqn:Hb; [|reflexivity].
    apply trim_blank_iff in Hb. rewrite Hb in Ht. discriminate.
  - intros r' Hr. apply list_elem_of_delete_inv in Hr.
    unfold exec. destruct (throws_or_parsed o) as [Ht|(text & v & -> & Hp)].
    + rewrite (settle_throws _ _ Ht). now apply Hw.
    + rewrite (settle_parsed _ _ _ Hp). now apply Hw.
  - intros r Hr. now apply elem_of_nil in Hr.
  - intros r Hr. now apply elem_of_nil in Hr.
  - unfold exec. rewrite (no_client_nonblank _ _ Ht). exact Hw.
Qed.

(** X20. No request leaves before onboarding, and none is ever sent for a
    blank drug list: every call in flight was built on an onboarded page
    from a drug text that holds more than white space, and it names the
    agent the page still shows. *)
Theorem requests_in_flight store w r :
  reachable_from (visit store) w ->
  r ∈ in_flight w ->
  onboarded (hooks (browser w)) = true
  /\ exists d, blank d = false
               /\ r = request d (agentName (hooks (browser w))).
Proof.
  intros [es H]. revert r.
  apply (run_invariant in_flight_well_formed in_flight_well_formed_fires es
           (visit store) w); [|exact H].
  intros r Hr. now apply elem_of_nil in Hr.
Qed.

Lemma requests_in_flight_witness :
  reachable_from (visit ∅) sample_session
  /\ request (lit "Warfarin, Aspirin") (lit "Pharmy") ∈ in_flight sample_session
  /\ onboarded (hooks (browser sample_session)) = true
  /\ exists d, blank d = false
               /\ request (lit "Warfarin, Aspirin") (lit "Pharmy")
                  = request d (agentName (hooks (browser sample_session))).
Proof.
  assert (Hin : request (lit "Warfarin, Aspirin") (lit "Pharmy")
                ∈ in_flight sample_session)
    by (apply list_elem_of_here).
  split; [exact sample_session_reachable|]. split; [exact Hin|].
  exact (requests_in_flight ∅ sample_session _ sample_session_reachable Hin).
Defined.

Lemma falsy_is_valid v : truthy (Some v) = false -> valid_child v = true.
Proof. destruct v; simpl; congruence. Qed.

Lemma valid_panel_of_object ms xs cs :
  valid_panel (panel_of_object ms xs cs)
  = valid_value (obj_get (field_name f_summary) ms) && forallb valid_card cs.
Proof.
  unfold valid_panel, panel_of_object.
  cbn [count_badge summary_box cards valid_length andb].
  f_equal. unfold summary_slot.
  destruct (obj_get (field_name f_summary) ms) as [v|]; [|reflexivity].
  now destruct (truthy (Some v)).
Qed.

Lemma mountable_is_drawable x : mountable_card x -> drawable_card x.
Proof. intros (ms & ds & -> & E & _). now exists ms, ds. Qed.

Lemma drawn_cards_mount xs cs :
  Forall2 draws_as xs cs ->
  forallb valid_card cs = true <-> Forall mountable_card xs.
Proof.
  induction 1 as [|x c xs cs (ms & ds & -> & E & ->) _ IH]; simpl.
  - split; [constructor|reflexivity].
  - rewrite andb_true_iff, IH. split.
    + intros [Hc Hr]. constructor; [now exists ms, ds|exact Hr].
    + intros H. inversion H as [|x' xs' (ms' & ds' & Hj & E' & Hv) Hr]; subst.
      injection Hj as <-. rewrite E in E'. injection E' as <-. auto.
Qed.

(** X14. The results part of the main screen is returned by App and mounted
    by React exactly when the stored value is falsy, or is an object whose
    summary is not a JSON object (nor an array holding one) and whose
    interactions member is an array of objects that each carry an array
    under drugs and hand React no JSON object as a chip, a label or a
    text. App itself returns a tree under the weaker condition that leaves
    the children aside, and when it throws, it throws a TypeError; a tree
    with a JSON object among its children is refused by React. *)
Theorem results_mount_iff v :
  ((exists blk, render_results v = Normal blk
                /\ valid_slot valid_panel blk = true)
   <-> truthy (Some v) = false
       \/ exists ms xs,
            v = JObject ms
            /\ obj_get (field_name f_interactions) ms = Some (JArray xs)
            /\ Forall mountable_card xs
            /\ valid_value (obj_get (field_name f_summary) ms) = true)
  /\ ((exists blk, render_results v = Normal blk)
      <-> truthy (Some v) = false
          \/ exists ms xs,
               v = JObject ms
               /\ obj_get (field_name f_interactions) ms = Some (JArray xs)
               /\ Forall drawable_card xs)
  /\ (forall e, render_results v = Throw e -> e = TypeError).
Proof.
  destruct (render_results_returns_iff v) as [Hret Hthrow].
  split; [|split; [exact Hret|exact Hthrow]].
  split.
  - intros (blk & Hb & Hv).
    destruct (truthy (Some v)) eqn:Ht; [right|now left].
    destruct (proj1 Hret (ex_intro _ blk Hb))
      as [?|(ms & xs & -> & Hi & Hd)]; [discriminate|].
    destruct (drawable_cards_draw xs Hd) as [cs Hc].
    rewrite (render_results_object ms xs cs Hi Hc) in Hb.
    injection Hb as <-. cbn [valid_slot] in Hv.
    rewrite valid_panel_of_object in Hv. apply andb_true_iff in Hv as [Hs Hcs].
    exists ms, xs. split; [reflexivity|]. split; [exact Hi|].
    split; [|exact Hs].
    now apply (drawn_cards_mount xs cs (cards_draw_in_order xs cs Hc)).
  - intros [Ht|(ms & xs & -> & Hi & Hm & Hs)].
    + exists (Bare (Some v)). unfold render_results. rewrite Ht.
      split; [reflexivity|]. now apply falsy_is_valid.
    + assert (Hd : Forall drawable_card xs)
        by (eapply Forall_impl; [exact Hm|apply mountable_is_drawable]).
      destruct (drawable_cards_draw xs Hd) as [cs Hc].
      exists (Boxed (panel_of_object ms xs cs)).
      split; [now apply render_results_object|].
      cbn [valid_slot]. rewrite valid_panel_of_object, Hs. cbn [andb].
      now apply (drawn_cards_mount xs cs (cards_draw_in_order xs cs Hc)).
Qed.

Lemma declared_shape_is_mounted (r : DDIResponse.t) :
  exists p, render_results (DDIResponse.to_json r) = Normal (Boxed p)
            /\ valid_panel p = true.
Proof.
  exists (panel_of r). split; [apply render_results_well_shaped|].
  apply valid_panel_of.
Qed.

Lemma declared_shape_is_drawable (r : DDIResponse.t) :
  exists ms,
    DDIResponse.to_json r = JObject ms
    /\ obj_get (field_name f_interactions) ms
       = Some (JArray (map InteractionResult.to_json (DDIResponse.interactions r)))
    /\ Forall drawable_card
              (map InteractionResult.to_json (DDIResponse.interactions r)).
Proof.
  eexists. split; [reflexivity|]. split; [reflexivity|].
  apply Forall_forall. intros x Hx. apply list_elem_of_fmap in Hx as (i & -> & _).
  eexists _, _. split; [reflexivity|]. reflexivity.
Qed.

(** A summary that is itself an object: [App] returns a tree, and React
    refuses it. *)
Example object_summary_is_refused :
  exists p,
    render_results
      (JObject [ (lit "interactions", JArray []);
                 (lit "summary", JObject [(lit "text", JString (lit "ok"))]) ])
    = Normal (Boxed p)
    /\ valid_panel p = false.
Proof. eexists. split; vm_compute; reflexivity. Qed.

Lemma no_client_click_blank reason b calls :
  trim (drugs (hooks b)) = [] ->
  dispatch (ClickAnalyzeNoClient reason) {| browser := b; in_flight := calls |}
  = None.
Proof.
  intros H. unfold dispatch, screen, App. simpl.
  destruct (onboarded (hooks b)); simpl; [|reflexivity].
  destruct (render_results (results (hooks b))) as [blk|e]; simpl;
    [|reflexivity].
  unfold analyze_disabled_of. rewrite H. simpl. now rewrite orb_true_r.
Qed.

(** The client failing within the click: Failed at once, nothing in
    flight, and the next click goes through. *)
Example no_client_session_retries :
  lifecycles (hooks (browser no_client_session)) = [Failed FETCH_ERROR]
  /\ in_flight no_client_session = []
  /\ exists w, dispatch ClickAnalyze no_client_session = Some w
               /\ lifecycles (hooks (browser w)) = [Loading].
Proof.
  split; [vm_compute; reflexivity|]. split; [vm_compute; reflexivity|].
  eexists. split; vm_compute; reflexivity.
Qed.
